(** * DS1307 real-time-clock driver: a shallow embedding of DS1307.c / DS1307.h

    The driver talks to the chip through two user-supplied function pointers
    (send and read).  Here the state of whatever stands behind these pointers
    is an abstract type [B]; every driver function takes the pair
    (context, bus state) and returns the updated pair, in the order in which
    the C code mutates [*usr] and calls the pointers.

    C integers are [Z] with their conversions written out: [u8] and [u16]
    are the conversions to [uint8_t] and [uint16_t].  Enumerations that the
    C code fills by casting raw register bits (hour format, time period, day,
    month) are [Z] with named constants; enumerations that are only ever
    passed as constants (bus address, register address, clock state) are
    inductive types. *)

From Stdlib Require Import ZArith List Bool Lia.
Import ListNotations.
Open Scope Z_scope.

(** ** Fixed-width integers *)

Definition u8 (x : Z) : Z := x mod 256.
Definition u16 (x : Z) : Z := x mod 65536.

(** [~x] on a 32-bit [unsigned int], as in [~(1U << 5)]. *)
Definition not32 (x : Z) : Z := Z.lxor x 4294967295.

(** ** DS1307.h: enumerations *)

Inductive ds1307_adr_t : Type :=
| DS1307_7_BIT_ADR   (* 0x68 *)
| DS1307_WRITE_ADR   (* 0xD0 *)
| DS1307_READ_ADR.   (* 0xD1 *)

Inductive ds1307_reg_adr_t : Type :=
| DS1307_SEC_REG_ADR
| DS1307_MIN_REG_ADR
| DS1307_HOUR_REG_ADR
| DS1307_DAY_REG_ADR
| DS1307_DATE_REG_ADR
| DS1307_MONTH_REG_ADR
| DS1307_YEAR_REG_ADR
| DS1307_CONT_REG_ADR.

Inductive ds1307_clock_t : Type :=
| DS1307_CLOCK_ENABLE
| DS1307_CLOCK_DISABLE.

Definition ds1307_day_t := Z.
Definition ds1307_month_t := Z.

Definition ds1307_timeperiod_t := Z.
Definition DS1307_AM : ds1307_timeperiod_t := 0.
Definition DS1307_PM : ds1307_timeperiod_t := 1.
Definition DS1307_NONE : ds1307_timeperiod_t := 2.

Definition ds_1307_hour_format_t := Z.
Definition DS1307_HOUR_FORMAT_24 : ds_1307_hour_format_t := 0.
Definition DS1307_HOUR_FORMAT_12 : ds_1307_hour_format_t := 1.

(** ** DS1307.c: the BCD codec *)

(** [return ((((value & 0xf0) >> 4) * 10) + (value & 0x0f));] *)
Definition BcdToDec (value : Z) : Z :=
  let value := u8 value in
  u8 (Z.shiftr (Z.land value 240) 4 * 10 + Z.land value 15).

(** [return (((value / 10) << 4) + (value % 10));] *)
Definition DecToBcd (value : Z) : Z :=
  let value := u8 value in
  u8 (Z.shiftl (value / 10) 4 + value mod 10).

(** ** Reasoning about bytes by enumeration *)

Definition all_below (n : nat) (p : Z -> bool) : bool :=
  forallb p (map Z.of_nat (seq 0 n)).

(** ** DS1307.h: the transport binding and the context

    [ds1307_i2c_send_ptr address reg data size] hands [size] bytes of [data]
    to the platform; [ds1307_i2c_read_ptr address reg size] returns the bytes
    the platform stored into the caller's buffer, first byte first.  Both
    may change the state [B] that stands behind the pointers. *)

Record ds1307_user_func_t (B : Type) : Type := {
  ds1307_i2c_send_ptr :
    ds1307_adr_t -> ds1307_reg_adr_t -> list Z -> Z -> B -> B;
  ds1307_i2c_read_ptr :
    ds1307_adr_t -> ds1307_reg_adr_t -> Z -> B -> list Z * B
}.
Arguments ds1307_i2c_send_ptr {B} _ _ _ _ _ _.
Arguments ds1307_i2c_read_ptr {B} _ _ _ _ _.

Record ds1307_context_t (B : Type) : Type := {
  functions : ds1307_user_func_t B;
  day : ds1307_day_t;
  month : ds1307_month_t;
  year : Z;          (* uint16_t *)
  hour : Z;          (* uint8_t *)
  minute : Z;        (* uint8_t *)
  second : Z;        (* uint8_t *)
  date : Z;          (* uint8_t *)
  time_period : ds1307_timeperiod_t;
  time_format : ds_1307_hour_format_t;
  century : Z        (* uint16_t *)
}.
Arguments functions {B} _.
Arguments day {B} _.
Arguments month {B} _.
Arguments year {B} _.
Arguments hour {B} _.
Arguments minute {B} _.
Arguments second {B} _.
Arguments date {B} _.
Arguments time_period {B} _.
Arguments time_format {B} _.
Arguments century {B} _.

Section Driver.

Variable B : Type.

Local Abbreviation ctx := (ds1307_context_t B).

(** A driver function maps the context and the bus state before the call
    to the context and the bus state after it. *)
Definition ds1307_state : Type := (ctx * B)%type.

(** Assignments [usr->field = v]. *)
Definition with_day (v : Z) (c : ctx) : ctx :=
  Build_ds1307_context_t B (functions c) v (month c) (year c) (hour c)
    (minute c) (second c) (date c) (time_period c) (time_format c)
    (century c).
Definition with_month (v : Z) (c : ctx) : ctx :=
  Build_ds1307_context_t B (functions c) (day c) v (year c) (hour c)
    (minute c) (second c) (date c) (time_period c) (time_format c)
    (century c).
Definition with_year (v : Z) (c : ctx) : ctx :=
  Build_ds1307_context_t B (functions c) (day c) (month c) v (hour c)
    (minute c) (second c) (date c) (time_period c) (time_format c)
    (century c).
Definition with_hour (v : Z) (c : ctx) : ctx :=
  Build_ds1307_context_t B (functions c) (day c) (month c) (year c) v
    (minute c) (second c) (date c) (time_period c) (time_format c)
    (century c).
Definition with_minute (v : Z) (c : ctx) : ctx :=
  Build_ds1307_context_t B (functions c) (day c) (month c) (year c) (hour c)
    v (second c) (date c) (time_period c) (time_format c) (century c).
Definition with_second (v : Z) (c : ctx) : ctx :=
  Build_ds1307_context_t B (functions c) (day c) (month c) (year c) (hour c)
    (minute c) v (date c) (time_period c) (time_format c) (century c).
Definition with_date (v : Z) (c : ctx) : ctx :=
  Build_ds1307_context_t B (functions c) (day c) (month c) (year c) (hour c)
    (minute c) (second c) v (time_period c) (time_format c) (century c).
Definition with_time_period (v : Z) (c : ctx) : ctx :=
  Build_ds1307_context_t B (functions c) (day c) (month c) (year c) (hour c)
    (minute c) (second c) (date c) v (time_format c) (century c).
Definition with_time_format (v : Z) (c : ctx) : ctx :=
  Build_ds1307_context_t B (functions c) (day c) (month c) (year c) (hour c)
    (minute c) (second c) (date c) (time_period c) v (century c).
Definition with_century (v : Z) (c : ctx) : ctx :=
  Build_ds1307_context_t B (functions c) (day c) (month c) (year c) (hour c)
    (minute c) (second c) (date c) (time_period c) (time_format c) v.

(** *** The two static transport helpers *)

Definition ds1307_i2c_send (usr : ctx) (address : ds1307_adr_t)
    (reg_adr : ds1307_reg_adr_t) (ds1307_data : list Z) (size : Z)
    (bus : B) : B :=
  ds1307_i2c_send_ptr (functions usr) address reg_adr ds1307_data size bus.

Definition ds1307_i2c_read (usr : ctx) (address : ds1307_adr_t)
    (reg_adr : ds1307_reg_adr_t) (size : Z) (bus : B) : list Z * B :=
  ds1307_i2c_read_ptr (functions usr) address reg_adr size bus.

(** The one-byte local [uint8_t x = 0;] after [read(..., &x, 1)]: the first
    byte delivered, or the initialiser when nothing was stored. *)
Definition local_byte (buf : list Z) : Z := u8 (nth 0 buf 0).

(** *** Minute and second *)

Definition ds1307_set_minute (minute : Z) (s : ds1307_state)
  : ds1307_state :=
  let '(usr, bus) := s in
  let minute := DecToBcd minute in
  (usr, ds1307_i2c_send usr DS1307_WRITE_ADR DS1307_MIN_REG_ADR
          [minute] 1 bus).

Definition ds1307_get_minute (s : ds1307_state) : ds1307_state :=
  let '(usr, bus) := s in
  let '(buf, bus) :=
    ds1307_i2c_read usr DS1307_READ_ADR DS1307_MIN_REG_ADR 1 bus in
  let minute := local_byte buf in
  (with_minute (BcdToDec minute) usr, bus).

Definition ds1307_set_second (second : Z) (s : ds1307_state)
  : ds1307_state :=
  let '(usr, bus) := s in
  let second := DecToBcd second in
  (usr, ds1307_i2c_send usr DS1307_WRITE_ADR DS1307_SEC_REG_ADR
          [second] 1 bus).

Definition ds1307_get_second (s : ds1307_state) : ds1307_state :=
  let '(usr, bus) := s in
  let '(buf, bus) :=
    ds1307_i2c_read usr DS1307_READ_ADR DS1307_SEC_REG_ADR 1 bus in
  let second := local_byte buf in
  let second := u8 (Z.land second (not32 (Z.shiftl 1 7))) in
  (with_second (BcdToDec second) usr, bus).

(** *** Hour *)

(** The byte [ds1307_set_hour] builds in its 12-hour branch, up to and
    including [hour |= (1U << 6)]. *)
Definition hour12_byte (hour : Z) : Z :=
  let hour :=
    if hour >? 11 then
      let hour := u8 (hour - 12) in
      if hour =? 0 then
        let hour := 12 in
        let hour := DecToBcd hour in
        u8 (Z.lor hour (Z.shiftl 1 5))
      else if hour =? 12 then
        let hour := DecToBcd hour in
        u8 (Z.land hour (not32 (Z.shiftl 1 5)))
      else
        let hour := DecToBcd hour in
        u8 (Z.lor hour (Z.shiftl 1 5))
    else if hour =? 0 then
      u8 (hour + 12)
    else
      let hour := DecToBcd hour in
      u8 (Z.land hour (not32 (Z.shiftl 1 5))) in
  u8 (Z.lor hour (Z.shiftl 1 6)).

Definition ds1307_set_hour (hour : Z) (s : ds1307_state) : ds1307_state :=
  let '(usr, bus) := s in
  let hour := u8 hour in
  if time_format usr =? DS1307_HOUR_FORMAT_12 then
    let hour := hour12_byte hour in
    (usr, ds1307_i2c_send usr DS1307_WRITE_ADR DS1307_HOUR_REG_ADR
            [hour] 1 bus)
  else
    let hour := DecToBcd hour in
    (usr, ds1307_i2c_send usr DS1307_WRITE_ADR DS1307_HOUR_REG_ADR
            [hour] 1 bus).

Definition ds1307_get_hour (s : ds1307_state) : ds1307_state :=
  let '(usr, bus) := s in
  let '(buf, bus) :=
    ds1307_i2c_read usr DS1307_READ_ADR DS1307_HOUR_REG_ADR 1 bus in
  let hour := local_byte buf in
  let usr := with_time_format (Z.shiftr (Z.land hour 64) 6) usr in
  let hour := u8 (Z.land hour (not32 (Z.shiftl 1 6))) in
  if time_format usr =? DS1307_HOUR_FORMAT_12 then
    let usr := with_time_period (Z.shiftr (Z.land hour 32) 5) usr in
    let hour := u8 (Z.land hour (not32 (Z.shiftl 1 5))) in
    (with_hour (BcdToDec hour) usr, bus)
  else
    let usr := with_time_period DS1307_NONE usr in
    (with_hour (BcdToDec hour) usr, bus).

(** *** Date, day of week, month, year *)

Definition ds1307_set_date (date : Z) (s : ds1307_state) : ds1307_state :=
  let '(usr, bus) := s in
  let date := DecToBcd date in
  (usr, ds1307_i2c_send usr DS1307_WRITE_ADR DS1307_DATE_REG_ADR
          [date] 1 bus).

Definition ds1307_get_date (s : ds1307_state) : ds1307_state :=
  let '(usr, bus) := s in
  let '(buf, bus) :=
    ds1307_i2c_read usr DS1307_READ_ADR DS1307_DATE_REG_ADR 1 bus in
  let date := local_byte buf in
  (with_date (BcdToDec date) usr, bus).

Definition ds1307_set_day (day : ds1307_day_t) (s : ds1307_state)
  : ds1307_state :=
  let '(usr, bus) := s in
  let day_8bit := DecToBcd day in
  (usr, ds1307_i2c_send usr DS1307_WRITE_ADR DS1307_DAY_REG_ADR
          [day_8bit] 1 bus).

Definition ds1307_get_day (s : ds1307_state) : ds1307_state :=
  let '(usr, bus) := s in
  let '(buf, bus) :=
    ds1307_i2c_read usr DS1307_READ_ADR DS1307_DAY_REG_ADR 1 bus in
  let day := local_byte buf in
  (with_day (BcdToDec day) usr, bus).

Definition ds1307_set_month (month : ds1307_month_t) (s : ds1307_state)
  : ds1307_state :=
  let '(usr, bus) := s in
  let month_8bit := DecToBcd month in
  (usr, ds1307_i2c_send usr DS1307_WRITE_ADR DS1307_MONTH_REG_ADR
          [month_8bit] 1 bus).

Definition ds1307_get_month (s : ds1307_state) : ds1307_state :=
  let '(usr, bus) := s in
  let '(buf, bus) :=
    ds1307_i2c_read usr DS1307_READ_ADR DS1307_MONTH_REG_ADR 1 bus in
  let month := local_byte buf in
  (with_month (BcdToDec month) usr, bus).

Definition ds1307_set_year (year : Z) (s : ds1307_state) : ds1307_state :=
  let '(usr, bus) := s in
  let year := u16 year in
  let year_8bit := u8 (year mod 100) in
  let usr := with_century (u16 (year - year_8bit)) usr in
  let year_8bit := DecToBcd year_8bit in
  (usr, ds1307_i2c_send usr DS1307_WRITE_ADR DS1307_YEAR_REG_ADR
          [year_8bit] 1 bus).

Definition ds1307_get_year (s : ds1307_state) : ds1307_state :=
  let '(usr, bus) := s in
  let '(buf, bus) :=
    ds1307_i2c_read usr DS1307_READ_ADR DS1307_YEAR_REG_ADR 1 bus in
  let year := local_byte buf in
  (with_year (u16 (century usr + BcdToDec year)) usr, bus).

(** *** Oscillator control *)

Definition ds1307_set_ch (clock : ds1307_clock_t) (s : ds1307_state)
  : ds1307_state :=
  let '(usr, bus) := s in
  let ch := 0 in
  match clock with
  | DS1307_CLOCK_DISABLE =>
      let ch := u8 (Z.lor ch (Z.shiftl 1 7)) in
      (usr, ds1307_i2c_send usr DS1307_WRITE_ADR DS1307_SEC_REG_ADR
              [ch] 1 bus)
  | _ =>
      let ch := u8 (Z.land ch (not32 (Z.shiftl 1 7))) in
      (usr, ds1307_i2c_send usr DS1307_WRITE_ADR DS1307_SEC_REG_ADR
              [ch] 1 bus)
  end.

(** *** Hour-format switch *)

(** The [switch (format)] of [ds1307_set_time_format]. *)
Definition convert_hour (format : ds_1307_hour_format_t) (usr : ctx)
  : ctx :=
  if format =? DS1307_HOUR_FORMAT_12 then
    with_time_format DS1307_HOUR_FORMAT_12 usr
  else if format =? DS1307_HOUR_FORMAT_24 then
    let usr := with_time_format DS1307_HOUR_FORMAT_24 usr in
    if time_period usr =? DS1307_PM then
      if negb (hour usr =? 12) then with_hour (u8 (hour usr + 12)) usr
      else usr
    else
      if hour usr =? 12 then with_hour 0 usr
      else usr
  else usr.

Definition ds1307_set_time_format (format : ds_1307_hour_format_t)
    (s : ds1307_state) : ds1307_state :=
  let s := ds1307_get_hour s in
  if negb (time_format (fst s) =? format) then
    let s := ds1307_set_ch DS1307_CLOCK_DISABLE s in
    let s := (convert_hour format (fst s), snd s) in
    let s := ds1307_set_year (year (fst s)) s in
    let s := ds1307_set_month (month (fst s)) s in
    let s := ds1307_set_date (date (fst s)) s in
    let s := ds1307_set_day (day (fst s)) s in
    let s := ds1307_set_hour (hour (fst s)) s in
    let s := ds1307_set_minute (minute (fst s)) s in
    let s := ds1307_set_second (second (fst s)) s in
    s
  else s.

(** *** Bulk read *)

Definition DS1307_read_date_time (s : ds1307_state) : ds1307_state :=
  let s := ds1307_get_year s in
  let s := ds1307_get_month s in
  let s := ds1307_get_date s in
  let s := ds1307_get_day s in
  let s := ds1307_get_hour s in
  let s := ds1307_get_minute s in
  let s := ds1307_get_second s in
  s.

(** *** The public operations as data, to quantify over "every driver
    operation" *)

Inductive ds1307_op : Type :=
| OpSetMinute (minute : Z)
| OpGetMinute
| OpSetSecond (second : Z)
| OpGetSecond
| OpSetHour (hour : Z)
| OpGetHour
| OpSetTimeFormat (format : ds_1307_hour_format_t)
| OpSetDate (date : Z)
| OpGetDate
| OpSetDay (day : ds1307_day_t)
| OpGetDay
| OpSetMonth (month : ds1307_month_t)
| OpGetMonth
| OpSetYear (year : Z)
| OpGetYear
| OpSetCh (clock : ds1307_clock_t)
| OpReadDateTime.

Definition run_op (o : ds1307_op) : ds1307_state -> ds1307_state :=
  match o with
  | OpSetMinute m => ds1307_set_minute m
  | OpGetMinute => ds1307_get_minute
  | OpSetSecond x => ds1307_set_second x
  | OpGetSecond => ds1307_get_second
  | OpSetHour h => ds1307_set_hour h
  | OpGetHour => ds1307_get_hour
  | OpSetTimeFormat f => ds1307_set_time_format f
  | OpSetDate d => ds1307_set_date d
  | OpGetDate => ds1307_get_date
  | OpSetDay d => ds1307_set_day d
  | OpGetDay => ds1307_get_day
  | OpSetMonth m => ds1307_set_month m
  | OpGetMonth => ds1307_get_month
  | OpSetYear y => ds1307_set_year y
  | OpGetYear => ds1307_get_year
  | OpSetCh c => ds1307_set_ch c
  | OpReadDateTime => DS1307_read_date_time
  end.

Definition run_ops (os : list ds1307_op) (s : ds1307_state)
  : ds1307_state :=
  fold_left (fun s o => run_op o s) os s.

End Driver.

Arguments ds1307_i2c_send {B} _ _ _ _ _ _.
Arguments ds1307_i2c_read {B} _ _ _ _ _.
Arguments ds1307_set_minute {B} _ _.
Arguments ds1307_get_minute {B} _.
Arguments ds1307_set_second {B} _ _.
Arguments ds1307_get_second {B} _.
Arguments ds1307_set_hour {B} _ _.
Arguments ds1307_get_hour {B} _.
Arguments ds1307_set_date {B} _ _.
Arguments ds1307_get_date {B} _.
Arguments ds1307_set_day {B} _ _.
Arguments ds1307_get_day {B} _.
Arguments ds1307_set_month {B} _ _.
Arguments ds1307_get_month {B} _.
Arguments ds1307_set_year {B} _ _.
Arguments ds1307_get_year {B} _.
Arguments ds1307_set_ch {B} _ _.
Arguments convert_hour {B} _ _.
Arguments ds1307_set_time_format {B} _ _.
Arguments DS1307_read_date_time {B} _.
Arguments run_op {B} _ _.
Arguments run_ops {B} _ _.
Arguments with_hour {B} _ _.
Arguments with_time_format {B} _ _.
Arguments with_time_period {B} _ _.

(** ** Two transports

    [traced f] is the transport [f] with a log: every call through either
    pointer is appended to the log before it is passed on.  [echo_functions]
    is a fake chip that stores every byte written to a register and returns
    it on the next read of that register. *)

Inductive i2c_txn : Type :=
| I2cSend (address : ds1307_adr_t) (reg_adr : ds1307_reg_adr_t)
          (data : list Z) (size : Z)
| I2cRead (address : ds1307_adr_t) (reg_adr : ds1307_reg_adr_t) (size : Z).

Definition traced {B : Type} (f : ds1307_user_func_t B)
  : ds1307_user_func_t (B * list i2c_txn) :=
  {| ds1307_i2c_send_ptr := fun a r d n s =>
       (ds1307_i2c_send_ptr f a r d n (fst s),
        snd s ++ [I2cSend a r d n]);
     ds1307_i2c_read_ptr := fun a r n s =>
       let '(buf, b) := ds1307_i2c_read_ptr f a r n (fst s) in
       (buf, (b, snd s ++ [I2cRead a r n])) |}.

(** One logged one-byte write to register [r] through [traced f]. *)
Definition logged_write {B : Type} (f : ds1307_user_func_t B)
    (r : ds1307_reg_adr_t) (v : Z) (bl : B * list i2c_txn)
  : B * list i2c_txn :=
  (ds1307_i2c_send_ptr f DS1307_WRITE_ADR r [v] 1 (fst bl),
   snd bl ++ [I2cSend DS1307_WRITE_ADR r [v] 1]).

(** Register numbers, as the enumeration assigns them. *)
Definition reg_index (r : ds1307_reg_adr_t) : Z :=
  match r with
  | DS1307_SEC_REG_ADR => 0
  | DS1307_MIN_REG_ADR => 1
  | DS1307_HOUR_REG_ADR => 2
  | DS1307_DAY_REG_ADR => 3
  | DS1307_DATE_REG_ADR => 4
  | DS1307_MONTH_REG_ADR => 5
  | DS1307_YEAR_REG_ADR => 6
  | DS1307_CONT_REG_ADR => 7
  end.

Definition next_reg (r : ds1307_reg_adr_t) : option ds1307_reg_adr_t :=
  match r with
  | DS1307_SEC_REG_ADR => Some DS1307_MIN_REG_ADR
  | DS1307_MIN_REG_ADR => Some DS1307_HOUR_REG_ADR
  | DS1307_HOUR_REG_ADR => Some DS1307_DAY_REG_ADR
  | DS1307_DAY_REG_ADR => Some DS1307_DATE_REG_ADR
  | DS1307_DATE_REG_ADR => Some DS1307_MONTH_REG_ADR
  | DS1307_MONTH_REG_ADR => Some DS1307_YEAR_REG_ADR
  | DS1307_YEAR_REG_ADR => Some DS1307_CONT_REG_ADR
  | DS1307_CONT_REG_ADR => None
  end.

(** The fake chip: one byte per register. *)
Definition chip : Type := ds1307_reg_adr_t -> Z.

Definition chip_set (r : ds1307_reg_adr_t) (v : Z) (c : chip) : chip :=
  fun r' => if reg_index r' =? reg_index r then u8 v else c r'.

Fixpoint chip_store (r : ds1307_reg_adr_t) (data : list Z) (c : chip)
  : chip :=
  match data with
  | [] => c
  | v :: rest =>
      match next_reg r with
      | Some r' => chip_store r' rest (chip_set r v c)
      | None => chip_set r v c
      end
  end.

Fixpoint chip_load (n : nat) (r : ds1307_reg_adr_t) (c : chip) : list Z :=
  match n with
  | O => []
  | S k =>
      c r :: match next_reg r with
             | Some r' => chip_load k r' c
             | None => []
             end
  end.

Definition echo_functions : ds1307_user_func_t chip :=
  {| ds1307_i2c_send_ptr := fun _ r d n c =>
       chip_store r (firstn (Z.to_nat n) d) c;
     ds1307_i2c_read_ptr := fun _ r n c =>
       (chip_load (Z.to_nat n) r c, c) |}.

(** The context invariants of the data model. *)
Definition ctx_inv {B : Type} (c : ds1307_context_t B) : Prop :=
  (time_format c = DS1307_HOUR_FORMAT_24 -> time_period c = DS1307_NONE) /\
  (time_format c = DS1307_HOUR_FORMAT_12 ->
     1 <= hour c <= 12 /\
     (time_period c = DS1307_AM \/ time_period c = DS1307_PM)).

(** The part of the context that the hour register determines. *)
Definition hour_view {B : Type} (c : ds1307_context_t B) : Z * Z * Z :=
  (hour c, time_format c, time_period c).

(** ** Fixtures: a context bound to a transport, and a chip at power-up *)

Definition blank_context {B : Type} (f : ds1307_user_func_t B)
  : ds1307_context_t B :=
  {| functions := f; day := 0; month := 0; year := 0; hour := 0;
     minute := 0; second := 0; date := 0; time_period := DS1307_AM;
     time_format := DS1307_HOUR_FORMAT_24; century := 0 |}.

Definition blank_chip : chip := fun _ => 0.

Definition context_12h {B : Type} (f : ds1307_user_func_t B)
  : ds1307_context_t B :=
  with_time_format DS1307_HOUR_FORMAT_12 (blank_context f).

(** A chip that answers [b] for every register, bound to a blank context:
    the canonical state in which the hour register holds [b]. *)
Definition hour_only (b : Z) : ds1307_state chip :=
  (blank_context echo_functions, fun _ => b).

(** ** Vocabulary for the further properties *)

(** A byte is packed BCD when both of its nibbles are decimal digits. *)
Definition valid_bcd (b : Z) : bool :=
  (Z.land b 15 <=? 9) && (Z.shiftr (Z.land b 240) 4 <=? 9).

(** The shape every transaction of the driver has: the write address for a
    send and the read address for a read, one byte of 0..255, and a
    register other than the control register. *)
Definition txn_ok (t : i2c_txn) : Prop :=
  match t with
  | I2cSend a r d n =>
      a = DS1307_WRITE_ADR /\ n = 1 /\ r <> DS1307_CONT_REG_ADR /\
      exists v, d = [v] /\ 0 <= v < 256
  | I2cRead a r n =>
      a = DS1307_READ_ADR /\ n = 1 /\ r <> DS1307_CONT_REG_ADR
  end.

(** A driver state over the logging transport whose log holds only
    transactions of that shape. *)
Definition traced_ok {B : Type} (f : ds1307_user_func_t B)
    (s : ds1307_state (B * list i2c_txn)) : Prop :=
  functions (fst s) = traced f /\ Forall txn_ok (snd (snd s)).

(** The hour and the period a 12-hour clock shows for hour [h] of 0..23. *)
Definition hour12_of (h : Z) : Z := if h mod 12 =? 0 then 12 else h mod 12.
Definition period_of (h : Z) : ds1307_timeperiod_t :=
  if h <? 12 then DS1307_AM else DS1307_PM.

(** * Properties *)

Lemma all_below_spec (n : nat) (p : Z -> bool) :
  all_below n p = true ->
  forall v, 0 <= v < Z.of_nat n -> p v = true.
Proof.
  unfold all_below. intros Hall v Hv.
  rewrite forallb_forall in Hall. apply Hall.
  apply in_map_iff. exists (Z.to_nat v). split.
  - apply Z2Nat.id. lia.
  - apply in_seq. lia.
Qed.

Lemma u8_range (x : Z) : 0 <= u8 x < 256.
Proof. unfold u8. apply Z.mod_pos_bound. lia. Qed.

Lemma u8_small (x : Z) : 0 <= x < 256 -> u8 x = x.
Proof. unfold u8. intros. apply Z.mod_small. assumption. Qed.

Lemma u8_idem (x : Z) : u8 (u8 x) = u8 x.
Proof. apply u8_small, u8_range. Qed.

Lemma BcdToDec_u8 (x : Z) : BcdToDec (u8 x) = BcdToDec x.
Proof. unfold BcdToDec. rewrite u8_idem. reflexivity. Qed.

Lemma DecToBcd_u8 (x : Z) : DecToBcd (u8 x) = DecToBcd x.
Proof. unfold DecToBcd. rewrite u8_idem. reflexivity. Qed.

Lemma DecToBcd_range (x : Z) : 0 <= DecToBcd x < 256.
Proof. unfold DecToBcd. apply u8_range. Qed.

Lemma BcdToDec_range (x : Z) : 0 <= BcdToDec x < 256.
Proof. unfold BcdToDec. apply u8_range. Qed.

Lemma BcdToDec_DecToBcd (v : Z) :
  0 <= v <= 99 -> BcdToDec (DecToBcd v) = v.
Proof.
  intros Hv.
  apply Z.eqb_eq.
  apply (all_below_spec 100 (fun x => BcdToDec (DecToBcd x) =? x)).
  - vm_compute. reflexivity.
  - change (Z.of_nat 100) with 100. lia.
Qed.

(** C4.  Encoding a value of 0..99 to packed BCD and decoding it again gives
    the value back: [BcdToDec (DecToBcd v) = v] for every [v] in [0,99]. *)
Theorem bcd_roundtrip (v : Z) :
  0 <= v <= 99 -> BcdToDec (DecToBcd v) = v.
Proof. exact (BcdToDec_DecToBcd v). Qed.

Lemma bcd_roundtrip_witness : BcdToDec (DecToBcd 59) = 59.
Proof. apply (bcd_roundtrip 59). lia. Defined.

(** ** How one call through the traced transport shows in the log *)

Section Traced.

Variable B : Type.
Variable f : ds1307_user_func_t B.

Lemma traced_send (usr : ds1307_context_t (B * list i2c_txn))
    (a : ds1307_adr_t) (r : ds1307_reg_adr_t) (d : list Z) (n : Z)
    (b : B) (log : list i2c_txn) :
  functions usr = traced f ->
  ds1307_i2c_send usr a r d n (b, log) =
  (ds1307_i2c_send_ptr f a r d n b, log ++ [I2cSend a r d n]).
Proof. intros Hf. unfold ds1307_i2c_send. rewrite Hf. reflexivity. Qed.

Lemma traced_read (usr : ds1307_context_t (B * list i2c_txn))
    (a : ds1307_adr_t) (r : ds1307_reg_adr_t) (n : Z)
    (b : B) (log : list i2c_txn) :
  functions usr = traced f ->
  ds1307_i2c_read usr a r n (b, log) =
  (fst (ds1307_i2c_read_ptr f a r n b),
   (snd (ds1307_i2c_read_ptr f a r n b), log ++ [I2cRead a r n])).
Proof.
  intros Hf. unfold ds1307_i2c_read. rewrite Hf. simpl.
  destruct (ds1307_i2c_read_ptr f a r n b). reflexivity.
Qed.

End Traced.

(** ** Reading the hour register *)

Lemma local_byte_range (buf : list Z) : 0 <= local_byte buf < 256.
Proof. unfold local_byte. apply u8_range. Qed.

(** The hour-format bit and the AM/PM bit of a byte are 0 or 1. *)
Lemma format_bit_cases (b : Z) :
  0 <= b < 256 ->
  Z.shiftr (Z.land b 64) 6 = 0 \/ Z.shiftr (Z.land b 64) 6 = 1.
Proof.
  intros Hb.
  pose proof (all_below_spec 256
    (fun x => (Z.shiftr (Z.land x 64) 6 =? 0)
              || (Z.shiftr (Z.land x 64) 6 =? 1))) as H.
  specialize (H eq_refl b Hb). simpl in H.
  apply orb_true_iff in H. destruct H as [H | H]; apply Z.eqb_eq in H; auto.
Qed.

Lemma period_bit_cases (b : Z) :
  0 <= b < 256 ->
  let h := u8 (Z.land b (not32 (Z.shiftl 1 6))) in
  Z.shiftr (Z.land h 32) 5 = 0 \/ Z.shiftr (Z.land h 32) 5 = 1.
Proof.
  intros Hb.
  pose proof (all_below_spec 256
    (fun x => let h := u8 (Z.land x (not32 (Z.shiftl 1 6))) in
              (Z.shiftr (Z.land h 32) 5 =? 0)
              || (Z.shiftr (Z.land h 32) 5 =? 1))) as H.
  specialize (H eq_refl b Hb). simpl in H.
  apply orb_true_iff in H. destruct H as [H | H]; apply Z.eqb_eq in H; auto.
Qed.

(** C10.  Whatever byte the transport delivers for the hour register,
    [ds1307_get_hour] leaves [time_format] equal to one of the two format
    constants and [time_period] equal to AM, PM or NONE. *)
Theorem get_hour_enums_valid (B : Type) (usr : ds1307_context_t B) (bus : B) :
  let usr' := fst (ds1307_get_hour (usr, bus)) in
  (time_format usr' = DS1307_HOUR_FORMAT_24 \/
   time_format usr' = DS1307_HOUR_FORMAT_12) /\
  (time_period usr' = DS1307_AM \/
   time_period usr' = DS1307_PM \/
   time_period usr' = DS1307_NONE).
Proof.
  unfold ds1307_get_hour.
  destruct (ds1307_i2c_read usr DS1307_READ_ADR DS1307_HOUR_REG_ADR 1 bus)
    as [buf bus'].
  pose proof (local_byte_range buf) as Hb.
  pose proof (format_bit_cases _ Hb) as Hf.
  pose proof (period_bit_cases _ Hb) as Hp.
  cbn zeta in Hp.
  unfold DS1307_HOUR_FORMAT_24, DS1307_HOUR_FORMAT_12,
    DS1307_AM, DS1307_PM, DS1307_NONE.
  cbn [time_format with_time_format].
  destruct Hf as [Hf | Hf]; rewrite Hf; cbn -[Z.land Z.shiftr u8 not32 Z.shiftl].
  - split; [left; reflexivity | right; right; reflexivity].
  - split; [right; reflexivity |].
    destruct Hp as [Hp | Hp]; rewrite Hp; auto.
Qed.

(** ** Writing the hour register *)

Lemma set_hour_12h (B : Type) (usr : ds1307_context_t B) (bus : B) (h : Z) :
  time_format usr = DS1307_HOUR_FORMAT_12 ->
  ds1307_set_hour h (usr, bus) =
  (usr, ds1307_i2c_send usr DS1307_WRITE_ADR DS1307_HOUR_REG_ADR
          [hour12_byte (u8 h)] 1 bus).
Proof. intros Hf. unfold ds1307_set_hour. rewrite Hf. reflexivity. Qed.

Lemma set_hour_24h (B : Type) (usr : ds1307_context_t B) (bus : B) (h : Z) :
  time_format usr <> DS1307_HOUR_FORMAT_12 ->
  ds1307_set_hour h (usr, bus) =
  (usr, ds1307_i2c_send usr DS1307_WRITE_ADR DS1307_HOUR_REG_ADR
          [DecToBcd h] 1 bus).
Proof.
  intros Hf. unfold ds1307_set_hour.
  apply Z.eqb_neq in Hf. rewrite Hf. rewrite DecToBcd_u8. reflexivity.
Qed.

(** C1.  With the context in 12-hour format, [ds1307_set_hour] called with
    hour 0 sends the single byte 0x4C (76: the binary value 12 with the
    12-hour marker, AM/PM bit clear) to the hour register.  The branch for
    hour 0 does not pass through [DecToBcd]; the BCD encoding of 12 with the
    marker would be 0x52 (82). *)
Theorem set_hour_midnight_12h_sends_0x4C :
  snd (snd (ds1307_set_hour 0
              (context_12h (traced echo_functions), (blank_chip, [])))) =
    [I2cSend DS1307_WRITE_ADR DS1307_HOUR_REG_ADR [76] 1] /\
  hour12_byte 0 = 76 /\
  Z.lor (DecToBcd 12) (Z.shiftl 1 6) = 82.
Proof. repeat split. Qed.

(** ** Oscillator control *)

(** C7.  [ds1307_set_ch] performs exactly one transaction, a one-byte write
    to the seconds register: 0x80 to disable the clock, 0x00 to enable it.
    The byte does not depend on what the register held, and on a chip that
    stores what it is sent the register holds exactly that byte afterwards. *)
Theorem set_ch_destructive_write (clock : ds1307_clock_t) :
  let byte := match clock with
              | DS1307_CLOCK_DISABLE => 128
              | DS1307_CLOCK_ENABLE => 0
              end in
  (forall (B : Type) (f : ds1307_user_func_t B)
          (usr : ds1307_context_t (B * list i2c_txn))
          (b : B) (log : list i2c_txn),
      functions usr = traced f ->
      ds1307_set_ch clock (usr, (b, log)) =
      (usr, (ds1307_i2c_send_ptr f DS1307_WRITE_ADR DS1307_SEC_REG_ADR
               [byte] 1 b,
             log ++ [I2cSend DS1307_WRITE_ADR DS1307_SEC_REG_ADR
                       [byte] 1]))) /\
  (forall (usr : ds1307_context_t chip) (c : chip),
      functions usr = echo_functions ->
      snd (ds1307_set_ch clock (usr, c)) DS1307_SEC_REG_ADR = byte).
Proof.
  split.
  - intros B f usr b log Hf. unfold ds1307_set_ch.
    destruct clock; rewrite (traced_send B f) by assumption; reflexivity.
  - intros usr c Hf. unfold ds1307_set_ch, ds1307_i2c_send.
    destruct clock; rewrite Hf; reflexivity.
Qed.

Lemma set_ch_destructive_write_witness :
  snd (ds1307_set_ch DS1307_CLOCK_DISABLE
         (blank_context echo_functions, chip_set DS1307_SEC_REG_ADR 89 blank_chip))
      DS1307_SEC_REG_ADR = 128 /\
  snd (snd (ds1307_set_ch DS1307_CLOCK_ENABLE
         (blank_context (traced echo_functions), (blank_chip, [])))) =
  [I2cSend DS1307_WRITE_ADR DS1307_SEC_REG_ADR [0] 1].
Proof.
  split.
  - apply (proj2 (set_ch_destructive_write DS1307_CLOCK_DISABLE)).
    reflexivity.
  - rewrite (proj1 (set_ch_destructive_write DS1307_CLOCK_ENABLE)
               chip echo_functions
               (blank_context (traced echo_functions)) blank_chip []
               eq_refl).
    reflexivity.
Defined.

(** ** What [ds1307_get_hour] touches *)

Section GetHour.

Variable B : Type.
Variables (usr : ds1307_context_t B) (bus : B).

Local Abbreviation rd :=
  (ds1307_i2c_read usr DS1307_READ_ADR DS1307_HOUR_REG_ADR 1 bus).

Lemma get_hour_bus : snd (ds1307_get_hour (usr, bus)) = snd rd.
Proof.
  unfold ds1307_get_hour.
  destruct (ds1307_i2c_read usr _ _ 1 bus) as [buf bus'].
  cbn [time_format with_time_format].
  destruct (_ =? DS1307_HOUR_FORMAT_12); reflexivity.
Qed.

Lemma get_hour_format :
  time_format (fst (ds1307_get_hour (usr, bus))) =
  Z.shiftr (Z.land (local_byte (fst rd)) 64) 6.
Proof.
  unfold ds1307_get_hour.
  destruct (ds1307_i2c_read usr _ _ 1 bus) as [buf bus'].
  cbn [time_format with_time_format].
  destruct (_ =? DS1307_HOUR_FORMAT_12); reflexivity.
Qed.

Lemma get_hour_frame :
  let usr' := fst (ds1307_get_hour (usr, bus)) in
  functions usr' = functions usr /\
  day usr' = day usr /\ month usr' = month usr /\ year usr' = year usr /\
  minute usr' = minute usr /\ second usr' = second usr /\
  date usr' = date usr /\ century usr' = century usr.
Proof.
  unfold ds1307_get_hour.
  destruct (ds1307_i2c_read usr _ _ 1 bus) as [buf bus'].
  cbn [time_format with_time_format].
  destruct (_ =? DS1307_HOUR_FORMAT_12); cbn; repeat split.
Qed.

End GetHour.

(** ** The format switch *)

Lemma set_time_format_same (B : Type) (s : ds1307_state B) (format : Z) :
  time_format (fst (ds1307_get_hour s)) = format ->
  ds1307_set_time_format format s = ds1307_get_hour s.
Proof.
  intros H. unfold ds1307_set_time_format.
  rewrite H, Z.eqb_refl. reflexivity.
Qed.

Lemma convert_hour_frame (B : Type) (format : Z) (usr : ds1307_context_t B) :
  let usr' := convert_hour format usr in
  functions usr' = functions usr /\
  day usr' = day usr /\ month usr' = month usr /\ year usr' = year usr /\
  minute usr' = minute usr /\ second usr' = second usr /\
  date usr' = date usr /\ century usr' = century usr.
Proof.
  unfold convert_hour.
  destruct (format =? DS1307_HOUR_FORMAT_12); [cbn; repeat split |].
  destruct (format =? DS1307_HOUR_FORMAT_24); [| cbn; repeat split].
  cbn [time_period hour with_time_format].
  destruct (_ =? DS1307_PM); destruct (_ =? 12); cbn; repeat split.
Qed.

(** C6.  When the requested format is the one the hour register already
    encodes, [ds1307_set_time_format] does what [ds1307_get_hour] does and
    nothing more: the log grows by the single read of the hour register, no
    write is issued, and every context field other than [hour],
    [time_format] and [time_period] keeps its value. *)
Theorem set_time_format_same_format_noop
    (B : Type) (f : ds1307_user_func_t B)
    (usr : ds1307_context_t (B * list i2c_txn))
    (b : B) (log : list i2c_txn) (format : ds_1307_hour_format_t) :
  functions usr = traced f ->
  format =
    Z.shiftr
      (Z.land
         (local_byte
            (fst (ds1307_i2c_read_ptr f DS1307_READ_ADR
                    DS1307_HOUR_REG_ADR 1 b))) 64) 6 ->
  let s' := ds1307_set_time_format format (usr, (b, log)) in
  s' = ds1307_get_hour (usr, (b, log)) /\
  snd (snd s') = log ++ [I2cRead DS1307_READ_ADR DS1307_HOUR_REG_ADR 1] /\
  fst (snd s') =
    snd (ds1307_i2c_read_ptr f DS1307_READ_ADR DS1307_HOUR_REG_ADR 1 b) /\
  time_format (fst s') = format /\
  functions (fst s') = functions usr /\
  day (fst s') = day usr /\ month (fst s') = month usr /\
  year (fst s') = year usr /\ minute (fst s') = minute usr /\
  second (fst s') = second usr /\ date (fst s') = date usr /\
  century (fst s') = century usr.
Proof.
  intros Hf Hfmt s'.
  assert (Hg : time_format (fst (ds1307_get_hour (usr, (b, log)))) = format).
  { rewrite get_hour_format, (traced_read B f) by assumption.
    symmetry. exact Hfmt. }
  assert (Hs : s' = ds1307_get_hour (usr, (b, log))).
  { apply set_time_format_same. exact Hg. }
  rewrite Hs. split; [reflexivity |].
  rewrite get_hour_bus, (traced_read B f) by assumption.
  repeat split; try exact Hg; apply get_hour_frame.
Qed.

Lemma set_time_format_same_format_noop_witness :
  snd (snd (ds1307_set_time_format DS1307_HOUR_FORMAT_12
              (blank_context (traced echo_functions),
               (chip_set DS1307_HOUR_REG_ADR 97 blank_chip, [])))) =
  [I2cRead DS1307_READ_ADR DS1307_HOUR_REG_ADR 1].
Proof.
  apply (set_time_format_same_format_noop chip echo_functions
           (blank_context (traced echo_functions))
           (chip_set DS1307_HOUR_REG_ADR 97 blank_chip) []
           DS1307_HOUR_FORMAT_12); reflexivity.
Defined.

(** ** The resynchronising writes, seen through the log *)

Section TracedWrites.

Variable B : Type.
Variable f : ds1307_user_func_t B.

Local Abbreviation tctx := (ds1307_context_t (B * list i2c_txn)).

Lemma traced_write (usr : tctx) (r : ds1307_reg_adr_t) (v : Z)
    (bl : B * list i2c_txn) :
  functions usr = traced f ->
  ds1307_i2c_send usr DS1307_WRITE_ADR r [v] 1 bl = logged_write f r v bl.
Proof. intros Hf. destruct bl. apply traced_send. exact Hf. Qed.

Lemma traced_set_year (usr : tctx) bl (y : Z) :
  functions usr = traced f ->
  exists usr' v,
    ds1307_set_year y (usr, bl) =
      (usr', logged_write f DS1307_YEAR_REG_ADR v bl) /\
    functions usr' = traced f /\ second usr' = second usr /\
    time_format usr' = time_format usr /\ hour usr' = hour usr /\
    minute usr' = minute usr.
Proof.
  intros Hf. unfold ds1307_set_year.
  eexists. eexists. split.
  - rewrite traced_write; [reflexivity | exact Hf].
  - cbn. auto.
Qed.

Lemma traced_set_time_format_changed (usr : tctx) (b : B)
    (log : list i2c_txn) (format : Z) :
  functions usr = traced f ->
  time_format (fst (ds1307_get_hour (usr, (b, log)))) <> format ->
  exists usr' b' y mo d dw h mi,
    ds1307_set_time_format format (usr, (b, log)) =
      (usr',
       (ds1307_i2c_send_ptr f DS1307_WRITE_ADR DS1307_SEC_REG_ADR
          [DecToBcd (second usr)] 1 b',
        log ++ [I2cRead DS1307_READ_ADR DS1307_HOUR_REG_ADR 1;
                I2cSend DS1307_WRITE_ADR DS1307_SEC_REG_ADR [128] 1;
                I2cSend DS1307_WRITE_ADR DS1307_YEAR_REG_ADR [y] 1;
                I2cSend DS1307_WRITE_ADR DS1307_MONTH_REG_ADR [mo] 1;
                I2cSend DS1307_WRITE_ADR DS1307_DATE_REG_ADR [d] 1;
                I2cSend DS1307_WRITE_ADR DS1307_DAY_REG_ADR [dw] 1;
                I2cSend DS1307_WRITE_ADR DS1307_HOUR_REG_ADR [h] 1;
                I2cSend DS1307_WRITE_ADR DS1307_MIN_REG_ADR [mi] 1;
                I2cSend DS1307_WRITE_ADR DS1307_SEC_REG_ADR
                  [DecToBcd (second usr)] 1])).
Proof.
  intros Hf Hne.
  unfold ds1307_set_time_format.
  apply Z.eqb_neq in Hne. rewrite Hne. cbn [negb].
  pose proof (get_hour_bus _ usr (b, log)) as Hbus.
  pose proof (get_hour_frame _ usr (b, log)) as Hfr.
  rewrite (traced_read B f) in Hbus by assumption. cbn [snd] in Hbus.
  destruct (ds1307_get_hour (usr, (b, log))) as [u1 bl1].
  cbn [fst snd] in *. subst bl1.
  destruct Hfr as (Hf1 & _ & _ & _ & _ & Hs1 & _ & _).
  rewrite Hf in Hf1.
  unfold ds1307_set_ch. rewrite traced_write by assumption.
  cbn [fst snd].
  pose proof (convert_hour_frame _ format u1) as Hcv.
  cbn zeta in Hcv. destruct Hcv as (Hf2 & _ & _ & _ & _ & Hs2 & _ & _).
  rewrite Hf1 in Hf2. rewrite Hs1 in Hs2.
  set (u2 := convert_hour format u1) in *.
  destruct (traced_set_year u2
              (logged_write f DS1307_SEC_REG_ADR
                 (u8 (Z.lor 0 (Z.shiftl 1 7)))
                 (snd (ds1307_i2c_read_ptr f DS1307_READ_ADR
                         DS1307_HOUR_REG_ADR 1 b),
                  log ++ [I2cRead DS1307_READ_ADR DS1307_HOUR_REG_ADR 1]))
              (year u2) Hf2)
    as (u3 & y & Hy & Hf3 & Hs3 & _).
  rewrite Hy. cbn [fst snd].
  unfold ds1307_set_month, ds1307_set_date, ds1307_set_day.
  rewrite !traced_write by assumption. cbn [fst snd].
  unfold ds1307_set_hour.
  destruct (time_format u3 =? DS1307_HOUR_FORMAT_12);
    rewrite traced_write by assumption; cbn [fst snd];
    unfold ds1307_set_minute, ds1307_set_second;
    rewrite !traced_write by assumption;
    unfold logged_write; cbn [fst snd];
    rewrite Hs3, Hs2;
    repeat rewrite <- app_assoc; cbn [app];
    do 8 eexists; reflexivity.
Qed.

End TracedWrites.

Lemma DecToBcd_below_60 (v : Z) :
  0 <= v <= 59 -> 0 <= DecToBcd v < 128 /\ Z.testbit (DecToBcd v) 7 = false.
Proof.
  intros Hv.
  pose proof (all_below_spec 60
    (fun x => (0 <=? DecToBcd x) && (DecToBcd x <? 128)
              && negb (Z.testbit (DecToBcd x) 7))) as H.
  specialize (H eq_refl v ltac:(simpl; lia)). simpl in H.
  apply andb_true_iff in H. destruct H as [H H3].
  apply andb_true_iff in H. destruct H as [H1 H2].
  apply Z.leb_le in H1. apply Z.ltb_lt in H2.
  apply negb_true_iff in H3. auto.
Qed.

(** C9.  When [ds1307_set_time_format] finds a format in the hour register
    other than the requested one and [second] of the context is in [0,59],
    the transactions it issues are, in order: the hour read, the clock-halt
    write 0x80 to the seconds register, the writes of year, month, date, day,
    hour and minute, and last the write of the BCD seconds to the seconds
    register.  That last byte has bit 7 clear, and the state of the bus after
    the operation is the one this last write leaves. *)
Theorem set_time_format_restarts_clock
    (B : Type) (f : ds1307_user_func_t B)
    (usr : ds1307_context_t (B * list i2c_txn))
    (b : B) (log : list i2c_txn) (format : ds_1307_hour_format_t) :
  functions usr = traced f ->
  0 <= second usr <= 59 ->
  format <>
    Z.shiftr
      (Z.land
         (local_byte
            (fst (ds1307_i2c_read_ptr f DS1307_READ_ADR
                    DS1307_HOUR_REG_ADR 1 b))) 64) 6 ->
  let s' := ds1307_set_time_format format (usr, (b, log)) in
  let last_byte := DecToBcd (second usr) in
  Z.testbit last_byte 7 = false /\
  exists b' y mo d dw h mi,
    fst (snd s') =
      ds1307_i2c_send_ptr f DS1307_WRITE_ADR DS1307_SEC_REG_ADR
        [last_byte] 1 b' /\
    snd (snd s') =
      log ++ [I2cRead DS1307_READ_ADR DS1307_HOUR_REG_ADR 1;
              I2cSend DS1307_WRITE_ADR DS1307_SEC_REG_ADR [128] 1;
              I2cSend DS1307_WRITE_ADR DS1307_YEAR_REG_ADR [y] 1;
              I2cSend DS1307_WRITE_ADR DS1307_MONTH_REG_ADR [mo] 1;
              I2cSend DS1307_WRITE_ADR DS1307_DATE_REG_ADR [d] 1;
              I2cSend DS1307_WRITE_ADR DS1307_DAY_REG_ADR [dw] 1;
              I2cSend DS1307_WRITE_ADR DS1307_HOUR_REG_ADR [h] 1;
              I2cSend DS1307_WRITE_ADR DS1307_MIN_REG_ADR [mi] 1;
              I2cSend DS1307_WRITE_ADR DS1307_SEC_REG_ADR [last_byte] 1].
Proof.
  intros Hf Hsec Hne s' last_byte.
  split; [apply DecToBcd_below_60; exact Hsec |].
  assert (Hg : time_format (fst (ds1307_get_hour (usr, (b, log)))) <> format).
  { rewrite get_hour_format, (traced_read B f) by assumption.
    intros E. apply Hne. symmetry. exact E. }
  destruct (traced_set_time_format_changed B f usr b log format Hf Hg)
    as (usr' & b' & y & mo & d & dw & h & mi & E).
  exists b', y, mo, d, dw, h, mi.
  subst s'. rewrite E. split; reflexivity.
Qed.

Lemma set_time_format_restarts_clock_witness :
  Z.testbit (DecToBcd 0) 7 = false /\
  exists b' y mo d dw h mi,
    fst (snd (ds1307_set_time_format DS1307_HOUR_FORMAT_12
                (blank_context (traced echo_functions), (blank_chip, [])))) =
      ds1307_i2c_send_ptr echo_functions DS1307_WRITE_ADR DS1307_SEC_REG_ADR
        [DecToBcd 0] 1 b' /\
    snd (snd (ds1307_set_time_format DS1307_HOUR_FORMAT_12
                (blank_context (traced echo_functions), (blank_chip, [])))) =
      [] ++ [I2cRead DS1307_READ_ADR DS1307_HOUR_REG_ADR 1;
             I2cSend DS1307_WRITE_ADR DS1307_SEC_REG_ADR [128] 1;
             I2cSend DS1307_WRITE_ADR DS1307_YEAR_REG_ADR [y] 1;
             I2cSend DS1307_WRITE_ADR DS1307_MONTH_REG_ADR [mo] 1;
             I2cSend DS1307_WRITE_ADR DS1307_DATE_REG_ADR [d] 1;
             I2cSend DS1307_WRITE_ADR DS1307_DAY_REG_ADR [dw] 1;
             I2cSend DS1307_WRITE_ADR DS1307_HOUR_REG_ADR [h] 1;
             I2cSend DS1307_WRITE_ADR DS1307_MIN_REG_ADR [mi] 1;
             I2cSend DS1307_WRITE_ADR DS1307_SEC_REG_ADR [DecToBcd 0] 1].
Proof.
  apply (set_time_format_restarts_clock chip echo_functions
           (blank_context (traced echo_functions)) blank_chip []
           DS1307_HOUR_FORMAT_12).
  - reflexivity.
  - simpl. lia.
  - vm_compute. discriminate.
Defined.

(** ** The driver on the echoing chip *)

Section Echo.

Variable usr : ds1307_context_t chip.
Hypothesis Hecho : functions usr = echo_functions.

Lemma echo_write (r : ds1307_reg_adr_t) (v : Z) (c : chip) :
  ds1307_i2c_send usr DS1307_WRITE_ADR r [v] 1 c = chip_set r v c.
Proof.
  unfold ds1307_i2c_send. rewrite Hecho. destruct r; reflexivity.
Qed.

Lemma echo_read (r : ds1307_reg_adr_t) (c : chip) :
  ds1307_i2c_read usr DS1307_READ_ADR r 1 c = ([c r], c).
Proof.
  unfold ds1307_i2c_read. rewrite Hecho. destruct r; reflexivity.
Qed.

Lemma echo_get_hour_chip (c : chip) : snd (ds1307_get_hour (usr, c)) = c.
Proof. rewrite get_hour_bus, echo_read. reflexivity. Qed.

(** What [ds1307_get_hour] stores depends on the hour register only. *)
Lemma echo_get_hour_view (c : chip) :
  hour_view (fst (ds1307_get_hour (usr, c))) =
  hour_view (fst (ds1307_get_hour (hour_only (c DS1307_HOUR_REG_ADR)))).
Proof.
  unfold ds1307_get_hour, hour_only.
  rewrite echo_read.
  change (ds1307_i2c_read (blank_context echo_functions) DS1307_READ_ADR
            DS1307_HOUR_REG_ADR 1 (fun _ => c DS1307_HOUR_REG_ADR))
    with ([c DS1307_HOUR_REG_ADR], fun _ : ds1307_reg_adr_t =>
                                     c DS1307_HOUR_REG_ADR).
  cbn [time_format with_time_format].
  destruct (_ =? DS1307_HOUR_FORMAT_12); reflexivity.
Qed.

End Echo.

Lemma hour_view_inv (B1 B2 : Type)
    (u : ds1307_context_t B1) (t : ds1307_context_t B2) :
  hour_view u = hour_view t ->
  hour u = hour t /\ time_format u = time_format t /\
  time_period u = time_period t.
Proof. unfold hour_view. intros H. injection H. auto. Qed.

(** The [switch] of the format change reads and writes the hour view only. *)
Lemma convert_hour_view (B1 B2 : Type) (format : Z)
    (u : ds1307_context_t B1) (t : ds1307_context_t B2) :
  hour_view u = hour_view t ->
  hour_view (convert_hour format u) = hour_view (convert_hour format t).
Proof.
  intros H. apply hour_view_inv in H. destruct H as (Hh & Hf & Hp).
  unfold convert_hour.
  destruct (format =? DS1307_HOUR_FORMAT_12).
  - unfold hour_view. cbn. rewrite Hh, Hp. reflexivity.
  - destruct (format =? DS1307_HOUR_FORMAT_24).
    + cbn [time_period hour with_time_format]. rewrite Hh, Hp.
      destruct (_ =? DS1307_PM); destruct (_ =? 12);
        unfold hour_view; cbn; rewrite ?Hh, ?Hp; reflexivity.
    + unfold hour_view. rewrite Hh, Hf, Hp. reflexivity.
Qed.

(** The byte [ds1307_set_hour] sends, as a function of the context's format
    and of the hour passed. *)
Lemma echo_set_hour (usr : ds1307_context_t chip) (c : chip) (h : Z) :
  functions usr = echo_functions ->
  ds1307_set_hour h (usr, c) =
  (usr, chip_set DS1307_HOUR_REG_ADR
          (if time_format usr =? DS1307_HOUR_FORMAT_12
           then hour12_byte (u8 h) else DecToBcd (u8 h)) c).
Proof.
  intros Hf. unfold ds1307_set_hour.
  destruct (time_format usr =? DS1307_HOUR_FORMAT_12);
    rewrite echo_write by assumption; reflexivity.
Qed.

(** A format switch that finds the other format on the echoing chip. *)
Lemma echo_set_time_format_changed
    (usr : ds1307_context_t chip) (c : chip) (format : Z) :
  functions usr = echo_functions ->
  time_format (fst (ds1307_get_hour (usr, c))) <> format ->
  let u2 := convert_hour format (fst (ds1307_get_hour (usr, c))) in
  let s' := ds1307_set_time_format format (usr, c) in
  functions (fst s') = echo_functions /\
  hour_view (fst s') = hour_view u2 /\
  snd s' DS1307_HOUR_REG_ADR =
    u8 (if time_format u2 =? DS1307_HOUR_FORMAT_12
        then hour12_byte (u8 (hour u2)) else DecToBcd (u8 (hour u2))) /\
  snd s' DS1307_SEC_REG_ADR = u8 (DecToBcd (second usr)) /\
  century (fst s') = u16 (u16 (year usr) - u8 (u16 (year usr) mod 100)).
Proof.
  intros Hf Hne u2 s'. subst s'.
  unfold ds1307_set_time_format.
  apply Z.eqb_neq in Hne. rewrite Hne. cbn [negb].
  pose proof (echo_get_hour_chip usr Hf c) as Hbus.
  pose proof (get_hour_frame _ usr c) as Hfr.
  destruct (ds1307_get_hour (usr, c)) as [u1 c1].
  cbn [fst snd] in *. subst c1.
  destruct Hfr as (Hf1 & _ & _ & Hy1 & _ & Hs1 & _ & _).
  rewrite Hf in Hf1.
  unfold ds1307_set_ch. rewrite echo_write by assumption.
  cbn [fst snd].
  pose proof (convert_hour_frame _ format u1) as Hcv.
  cbn zeta in Hcv. fold u2 in Hcv.
  destruct Hcv as (Hf2 & _ & _ & Hy2 & _ & Hs2 & _ & _).
  rewrite Hf1 in Hf2. rewrite Hs1 in Hs2. rewrite Hy1 in Hy2.
  unfold ds1307_set_year. rewrite echo_write by assumption.
  cbn [fst snd].
  unfold ds1307_set_month, ds1307_set_date, ds1307_set_day.
  rewrite !echo_write by assumption. cbn [fst snd].
  rewrite echo_set_hour by assumption. cbn [fst snd].
  unfold ds1307_set_minute, ds1307_set_second.
  rewrite !echo_write by assumption. cbn [fst snd].
  repeat split.
  - exact Hf2.
  - cbn. fold u2. rewrite Hs2. reflexivity.
  - cbn. fold u2. rewrite Hy2. reflexivity.
Qed.

(** On the echoing chip the hour register and the hour view after a format
    switch depend on the hour register before it and on nothing else. *)
Lemma echo_set_time_format_local
    (usr : ds1307_context_t chip) (c : chip) (format b : Z) :
  functions usr = echo_functions ->
  c DS1307_HOUR_REG_ADR = b ->
  let s' := ds1307_set_time_format format (usr, c) in
  let t' := ds1307_set_time_format format (hour_only b) in
  functions (fst s') = echo_functions /\
  hour_view (fst s') = hour_view (fst t') /\
  snd s' DS1307_HOUR_REG_ADR = snd t' DS1307_HOUR_REG_ADR.
Proof.
  intros Hf Hb s' t'. subst s' t'.
  pose proof (echo_get_hour_view usr Hf c) as Hv.
  rewrite Hb in Hv. unfold hour_only in *.
  pose proof (hour_view_inv _ _ _ _ Hv) as (_ & Hfmt & _).
  destruct (Z.eq_dec (time_format (fst (ds1307_get_hour (usr, c)))) format)
    as [Heq | Hne].
  - rewrite (set_time_format_same _ (usr, c)) by exact Heq.
    rewrite (set_time_format_same _
               (blank_context echo_functions,
                fun _ : ds1307_reg_adr_t => b))
      by exact (eq_trans (eq_sym Hfmt) Heq).
    rewrite echo_get_hour_chip by assumption.
    rewrite (echo_get_hour_chip (blank_context echo_functions) eq_refl).
    repeat split; [| exact Hv | exact Hb].
    rewrite (proj1 (get_hour_frame _ usr c)). exact Hf.
  - destruct (echo_set_time_format_changed usr c format Hf Hne)
      as (H1 & H2 & H3 & _).
    assert (Hne' : time_format
                     (fst (ds1307_get_hour
                             (blank_context echo_functions,
                              fun _ : ds1307_reg_adr_t => b))) <> format)
      by (intros E; apply Hne; exact (eq_trans Hfmt E)).
    destruct (echo_set_time_format_changed
                (blank_context echo_functions) (fun _ => b) format
                eq_refl Hne') as (_ & H2' & H3' & _).
    pose proof (convert_hour_view _ _ format _ _ Hv) as Hcv.
    pose proof (hour_view_inv _ _ _ _ Hcv) as (Eh & Ef & _).
    repeat split.
    + exact H1.
    + exact (eq_trans H2 (eq_trans Hcv (eq_sym H2'))).
    + rewrite H3, Eh, Ef. symmetry. exact H3'.
Qed.

(** After a format switch that rewrote the registers, the seconds register of
    the echoing chip has the clock-halt bit clear. *)
Lemma echo_clock_running_after_switch
    (usr : ds1307_context_t chip) (c : chip) (format : Z) :
  functions usr = echo_functions ->
  0 <= second usr <= 59 ->
  time_format (fst (ds1307_get_hour (usr, c))) <> format ->
  Z.testbit
    (snd (ds1307_set_time_format format (usr, c)) DS1307_SEC_REG_ADR) 7
  = false.
Proof.
  intros Hf Hs Hne.
  destruct (echo_set_time_format_changed usr c format Hf Hne)
    as (_ & _ & _ & Hsec & _).
  rewrite Hsec, u8_small by apply DecToBcd_range.
  apply DecToBcd_below_60. exact Hs.
Qed.

(** The round trip on the canonical states, checked for each hour. *)
Lemma canonical_roundtrip (h : Z) :
  0 <= h <= 23 ->
  let t1 := ds1307_set_time_format DS1307_HOUR_FORMAT_12
              (hour_only (DecToBcd h)) in
  let t2 := ds1307_set_time_format DS1307_HOUR_FORMAT_24
              (hour_only (snd t1 DS1307_HOUR_REG_ADR)) in
  snd t2 DS1307_HOUR_REG_ADR = DecToBcd h /\
  hour (fst t2) = h /\
  time_format (fst t2) = DS1307_HOUR_FORMAT_24.
Proof.
  intros Hh.
  assert (Hall : all_below 24
    (fun x =>
       let t1 := ds1307_set_time_format DS1307_HOUR_FORMAT_12
                   (hour_only (DecToBcd x)) in
       let t2 := ds1307_set_time_format DS1307_HOUR_FORMAT_24
                   (hour_only (snd t1 DS1307_HOUR_REG_ADR)) in
       (snd t2 DS1307_HOUR_REG_ADR =? DecToBcd x)
       && (hour (fst t2) =? x)
       && (time_format (fst t2) =? DS1307_HOUR_FORMAT_24)) = true)
    by (vm_compute; reflexivity).
  assert (Hr : 0 <= h < Z.of_nat 24)
    by (change (Z.of_nat 24) with 24; lia).
  pose proof (all_below_spec 24 _ Hall h Hr) as H.
  cbv beta zeta in H.
  apply andb_true_iff in H. destruct H as [H H3].
  apply andb_true_iff in H. destruct H as [H1 H2].
  apply Z.eqb_eq in H1. apply Z.eqb_eq in H2. apply Z.eqb_eq in H3.
  intros t1 t2. exact (conj H1 (conj H2 H3)).
Qed.

(** C3.  On the echoing chip, with the hour register holding hour [h] of
    0..23 in 24-hour encoding, switching to the 12-hour format and back to
    the 24-hour format leaves the hour register holding [h] in 24-hour
    encoding again and the context with [hour = h] in 24-hour format.
    Starting from 13, the register holds 0x61 in between, which
    [ds1307_get_hour] reads as 1 PM in 12-hour format. *)
Theorem format_roundtrip
    (usr : ds1307_context_t chip) (c : chip) (h : Z) :
  functions usr = echo_functions ->
  0 <= h <= 23 ->
  c DS1307_HOUR_REG_ADR = DecToBcd h ->
  let s1 := ds1307_set_time_format DS1307_HOUR_FORMAT_12 (usr, c) in
  let s2 := ds1307_set_time_format DS1307_HOUR_FORMAT_24 s1 in
  snd s2 DS1307_HOUR_REG_ADR = DecToBcd h /\
  hour (fst s2) = h /\
  time_format (fst s2) = DS1307_HOUR_FORMAT_24 /\
  (h = 13 ->
   snd s1 DS1307_HOUR_REG_ADR = 97 /\
   hour_view (fst (ds1307_get_hour s1)) =
     (1, DS1307_HOUR_FORMAT_12, DS1307_PM)).
Proof.
  intros Hf Hh Hc s1 s2.
  destruct (echo_set_time_format_local usr c DS1307_HOUR_FORMAT_12
              (DecToBcd h) Hf Hc) as (Hf1 & _ & Hr1).
  fold s1 in Hf1, Hr1.
  assert (Es1 : s1 = (fst s1, snd s1)) by (destruct s1; reflexivity).
  destruct (echo_set_time_format_local (fst s1) (snd s1)
              DS1307_HOUR_FORMAT_24 _ Hf1 Hr1) as (_ & Hv2 & Hr2).
  rewrite <- Es1 in Hv2, Hr2. fold s2 in Hv2, Hr2.
  destruct (canonical_roundtrip h Hh) as (Hk1 & Hk2 & Hk3).
  apply hour_view_inv in Hv2. destruct Hv2 as (Hhour & Hfmt & _).
  split; [exact (eq_trans Hr2 Hk1) |].
  split; [exact (eq_trans Hhour Hk2) |].
  split; [exact (eq_trans Hfmt Hk3) |].
  intros E13. split.
  - rewrite Hr1. subst h. vm_compute. reflexivity.
  - rewrite Es1.
    rewrite (echo_get_hour_view (fst s1) Hf1 (snd s1)).
    rewrite Hr1. subst h. vm_compute. reflexivity.
Qed.

Lemma format_roundtrip_witness :
  let s1 := ds1307_set_time_format DS1307_HOUR_FORMAT_12
              (blank_context echo_functions,
               chip_set DS1307_HOUR_REG_ADR 19 blank_chip) in
  let s2 := ds1307_set_time_format DS1307_HOUR_FORMAT_24 s1 in
  snd s2 DS1307_HOUR_REG_ADR = DecToBcd 13 /\
  hour (fst s2) = 13 /\
  time_format (fst s2) = DS1307_HOUR_FORMAT_24 /\
  (13 = 13 ->
   snd s1 DS1307_HOUR_REG_ADR = 97 /\
   hour_view (fst (ds1307_get_hour s1)) =
     (1, DS1307_HOUR_FORMAT_12, DS1307_PM)).
Proof.
  apply (format_roundtrip (blank_context echo_functions)
           (chip_set DS1307_HOUR_REG_ADR 19 blank_chip) 13).
  - reflexivity.
  - lia.
  - reflexivity.
Defined.

(** ** Year and century *)

Lemma u16_small (x : Z) : 0 <= x < 65536 -> u16 x = x.
Proof. unfold u16. intros. apply Z.mod_small. assumption. Qed.

(** The century [ds1307_set_year] caches: the year with its last two digits
    removed. *)
Lemma set_year_century (B : Type) (s : ds1307_state B) (y : Z) :
  century (fst (ds1307_set_year y s)) =
  u16 y - u16 y mod 100.
Proof.
  destruct s as [usr bus]. unfold ds1307_set_year. cbn [fst century with_century].
  pose proof (Z.mod_pos_bound y 65536 ltac:(lia)) as Hy.
  fold (u16 y) in Hy.
  pose proof (Z.mod_pos_bound (u16 y) 100 ltac:(lia)) as Hm.
  pose proof (Z.mod_le (u16 y) 100 ltac:(lia) ltac:(lia)) as Hle.
  rewrite (u8_small (u16 y mod 100)) by lia.
  apply u16_small. lia.
Qed.

Lemma echo_set_year (usr : ds1307_context_t chip) (c : chip) (y : Z) :
  functions usr = echo_functions ->
  functions (fst (ds1307_set_year y (usr, c))) = echo_functions /\
  snd (ds1307_set_year y (usr, c)) DS1307_YEAR_REG_ADR =
    DecToBcd (u16 y mod 100).
Proof.
  intros Hf. unfold ds1307_set_year.
  rewrite echo_write by assumption. cbn [fst snd].
  split; [exact Hf |].
  unfold chip_set. cbn [reg_index]. rewrite Z.eqb_refl.
  rewrite DecToBcd_u8. apply u8_small, DecToBcd_range.
Qed.

Lemma echo_get_year (usr : ds1307_context_t chip) (c : chip) :
  functions usr = echo_functions ->
  year (fst (ds1307_get_year (usr, c))) =
    u16 (century usr + BcdToDec (c DS1307_YEAR_REG_ADR)) /\
  century (fst (ds1307_get_year (usr, c))) = century usr.
Proof.
  intros Hf. unfold ds1307_get_year.
  rewrite echo_read by assumption. cbn [fst year century with_year].
  unfold local_byte. cbn [nth]. rewrite BcdToDec_u8. split; reflexivity.
Qed.

(** C5.  On the echoing chip, for every four-digit year [y],
    [ds1307_set_year y] followed by [ds1307_get_year] leaves [year = y] in
    the context, with [century + year mod 100 = year]; and if the year
    register reads 00 instead, [ds1307_get_year] yields the century cached by
    [ds1307_set_year], which is [y] without its last two digits. *)
Theorem year_roundtrip
    (usr : ds1307_context_t chip) (c : chip) (y : Z) :
  functions usr = echo_functions ->
  1000 <= y <= 9999 ->
  let s1 := ds1307_set_year y (usr, c) in
  let s2 := ds1307_get_year s1 in
  let s3 := ds1307_get_year
              (fst s1, chip_set DS1307_YEAR_REG_ADR 0 (snd s1)) in
  year (fst s2) = y /\
  century (fst s2) + year (fst s2) mod 100 = year (fst s2) /\
  century (fst s1) = y - y mod 100 /\
  year (fst s3) = century (fst s1).
Proof.
  intros Hf Hy s1 s2 s3.
  pose proof (set_year_century _ (usr, c) y) as Hc. fold s1 in Hc.
  destruct (echo_set_year usr c y Hf) as (Hf1 & Hr1).
  fold s1 in Hf1, Hr1.
  rewrite (u16_small y) in Hc, Hr1 by lia.
  pose proof (Z.mod_pos_bound y 100 ltac:(lia)) as Hm.
  assert (Es1 : s1 = (fst s1, snd s1)) by (destruct s1; reflexivity).
  destruct (echo_get_year (fst s1) (snd s1) Hf1) as (Hy2 & Hc2).
  rewrite <- Es1 in Hy2, Hc2. fold s2 in Hy2, Hc2.
  rewrite Hr1, BcdToDec_DecToBcd, Hc in Hy2 by lia.
  replace (y - y mod 100 + y mod 100) with y in Hy2 by lia.
  rewrite u16_small in Hy2 by lia.
  destruct (echo_get_year (fst s1)
              (chip_set DS1307_YEAR_REG_ADR 0 (snd s1)) Hf1) as (Hy3 & _).
  fold s3 in Hy3.
  change (chip_set DS1307_YEAR_REG_ADR 0 (snd s1) DS1307_YEAR_REG_ADR)
    with 0 in Hy3.
  change (BcdToDec 0) with 0 in Hy3.
  rewrite Z.add_0_r, Hc, u16_small in Hy3 by lia.
  repeat split.
  - exact Hy2.
  - rewrite Hc2, Hy2, Hc. lia.
  - exact Hc.
  - rewrite Hy3, Hc. reflexivity.
Qed.

Lemma year_roundtrip_witness :
  let s1 := ds1307_set_year 2025 (blank_context echo_functions, blank_chip) in
  let s2 := ds1307_get_year s1 in
  let s3 := ds1307_get_year
              (fst s1, chip_set DS1307_YEAR_REG_ADR 0 (snd s1)) in
  year (fst s2) = 2025 /\
  century (fst s2) + year (fst s2) mod 100 = year (fst s2) /\
  century (fst s1) = 2025 - 2025 mod 100 /\
  year (fst s3) = century (fst s1).
Proof.
  apply (year_roundtrip (blank_context echo_functions) blank_chip 2025).
  - reflexivity.
  - lia.
Defined.

(** ** Who writes the cached century *)

Section Century.

Variable B : Type.

Local Abbreviation state := (ds1307_state B).

(** The plain setters leave the context alone. *)
Lemma set_minute_ctx (v : Z) (s : state) :
  fst (ds1307_set_minute v s) = fst s.
Proof. destruct s. reflexivity. Qed.

Lemma set_second_ctx (v : Z) (s : state) :
  fst (ds1307_set_second v s) = fst s.
Proof. destruct s. reflexivity. Qed.

Lemma set_hour_ctx (v : Z) (s : state) :
  fst (ds1307_set_hour v s) = fst s.
Proof.
  destruct s as [usr bus]. unfold ds1307_set_hour.
  destruct (time_format usr =? DS1307_HOUR_FORMAT_12); reflexivity.
Qed.

Lemma set_date_ctx (v : Z) (s : state) :
  fst (ds1307_set_date v s) = fst s.
Proof. destruct s. reflexivity. Qed.

Lemma set_day_ctx (v : Z) (s : state) :
  fst (ds1307_set_day v s) = fst s.
Proof. destruct s. reflexivity. Qed.

Lemma set_month_ctx (v : Z) (s : state) :
  fst (ds1307_set_month v s) = fst s.
Proof. destruct s. reflexivity. Qed.

Lemma set_ch_ctx (clock : ds1307_clock_t) (s : state) :
  fst (ds1307_set_ch clock s) = fst s.
Proof. destruct s. destruct clock; reflexivity. Qed.

(** The getters write one field each, never [century]. *)
Lemma get_minute_century (s : state) :
  century (fst (ds1307_get_minute s)) = century (fst s).
Proof.
  destruct s as [usr bus]. unfold ds1307_get_minute.
  destruct (ds1307_i2c_read usr _ _ 1 bus). reflexivity.
Qed.

Lemma get_second_century (s : state) :
  century (fst (ds1307_get_second s)) = century (fst s).
Proof.
  destruct s as [usr bus]. unfold ds1307_get_second.
  destruct (ds1307_i2c_read usr _ _ 1 bus). reflexivity.
Qed.

Lemma get_hour_century (s : state) :
  century (fst (ds1307_get_hour s)) = century (fst s).
Proof. destruct s as [usr bus]. apply get_hour_frame. Qed.

Lemma get_date_century (s : state) :
  century (fst (ds1307_get_date s)) = century (fst s).
Proof.
  destruct s as [usr bus]. unfold ds1307_get_date.
  destruct (ds1307_i2c_read usr _ _ 1 bus). reflexivity.
Qed.

Lemma get_day_century (s : state) :
  century (fst (ds1307_get_day s)) = century (fst s).
Proof.
  destruct s as [usr bus]. unfold ds1307_get_day.
  destruct (ds1307_i2c_read usr _ _ 1 bus). reflexivity.
Qed.

Lemma get_month_century (s : state) :
  century (fst (ds1307_get_month s)) = century (fst s).
Proof.
  destruct s as [usr bus]. unfold ds1307_get_month.
  destruct (ds1307_i2c_read usr _ _ 1 bus). reflexivity.
Qed.

Lemma get_year_century (s : state) :
  century (fst (ds1307_get_year s)) = century (fst s).
Proof.
  destruct s as [usr bus]. unfold ds1307_get_year.
  destruct (ds1307_i2c_read usr _ _ 1 bus). reflexivity.
Qed.

Lemma read_date_time_century (s : state) :
  century (fst (DS1307_read_date_time s)) = century (fst s).
Proof.
  unfold DS1307_read_date_time.
  rewrite get_second_century, get_minute_century, get_hour_century,
    get_day_century, get_date_century, get_month_century,
    get_year_century.
  reflexivity.
Qed.

(** The format switch leaves [century] alone when the format is already
    the requested one, and otherwise recomputes it from the context's
    [year] through its call of [ds1307_set_year]. *)
Lemma set_time_format_century (format : Z) (s : state) :
  century (fst (ds1307_set_time_format format s)) = century (fst s) \/
  century (fst (ds1307_set_time_format format s)) =
    u16 (year (fst s)) - u16 (year (fst s)) mod 100.
Proof.
  unfold ds1307_set_time_format.
  destruct (negb (time_format (fst (ds1307_get_hour s)) =? format)).
  - right.
    rewrite set_second_ctx, set_minute_ctx, set_hour_ctx, set_day_ctx,
      set_date_ctx, set_month_ctx.
    rewrite set_year_century. cbn [fst].
    rewrite (proj1 (proj2 (proj2 (proj2 (convert_hour_frame _ format _))))).
    rewrite set_ch_ctx.
    destruct s as [usr bus].
    rewrite (proj1 (proj2 (proj2 (proj2 (get_hour_frame _ usr bus))))).
    reflexivity.
  - left. apply get_hour_century.
Qed.

(** The same, saying which of the two it is. *)
Lemma set_time_format_century_exact (format : Z) (s : state) :
  century (fst (ds1307_set_time_format format s)) =
  if time_format (fst (ds1307_get_hour s)) =? format
  then century (fst s)
  else u16 (year (fst s)) - u16 (year (fst s)) mod 100.
Proof.
  unfold ds1307_set_time_format.
  destruct (time_format (fst (ds1307_get_hour s)) =? format); cbn [negb].
  - apply get_hour_century.
  - cbv zeta.
    rewrite set_second_ctx, set_minute_ctx, set_hour_ctx, set_day_ctx,
      set_date_ctx, set_month_ctx.
    rewrite set_year_century. cbn [fst].
    rewrite (proj1 (proj2 (proj2 (proj2 (convert_hour_frame _ format _))))).
    rewrite set_ch_ctx.
    destruct s as [usr bus].
    rewrite (proj1 (proj2 (proj2 (proj2 (get_hour_frame _ usr bus))))).
    reflexivity.
Qed.

(** Every operation other than the year write and the format switch keeps
    [century]. *)
Lemma run_op_century_frame (o : ds1307_op) (s : state) :
  (forall y, o <> OpSetYear y) ->
  (forall format, o <> OpSetTimeFormat format) ->
  century (fst (run_op o s)) = century (fst s).
Proof.
  intros Hy Hf.
  destruct o as [m | | x | | h | | format | d | | d | | m | | y | | c | ];
    cbn [run_op];
    try (first [ rewrite set_minute_ctx | rewrite set_second_ctx
               | rewrite set_hour_ctx | rewrite set_date_ctx
               | rewrite set_day_ctx | rewrite set_month_ctx
               | rewrite set_ch_ctx | apply get_minute_century
               | apply get_second_century | apply get_hour_century
               | apply get_date_century | apply get_day_century
               | apply get_month_century | apply get_year_century
               | apply read_date_time_century ];
         reflexivity).
  - exfalso. exact (Hf format eq_refl).
  - exfalso. exact (Hy y eq_refl).
Qed.

Lemma century_form_multiple (y : Z) : (u16 y - u16 y mod 100) mod 100 = 0.
Proof.
  rewrite Zminus_mod, Z.mod_mod, Z.sub_diag by lia. reflexivity.
Qed.

Lemma run_op_century (o : ds1307_op) (s : state) :
  century (fst s) mod 100 = 0 ->
  century (fst (run_op o s)) mod 100 = 0.
Proof.
  intros H.
  destruct o as [m | | x | | h | | format | d | | d | | m | | y | | c | ];
    cbn [run_op].
  - rewrite set_minute_ctx. exact H.
  - rewrite get_minute_century. exact H.
  - rewrite set_second_ctx. exact H.
  - rewrite get_second_century. exact H.
  - rewrite set_hour_ctx. exact H.
  - rewrite get_hour_century. exact H.
  - destruct (set_time_format_century format s) as [E | E]; rewrite E.
    + exact H.
    + apply century_form_multiple.
  - rewrite set_date_ctx. exact H.
  - rewrite get_date_century. exact H.
  - rewrite set_day_ctx. exact H.
  - rewrite get_day_century. exact H.
  - rewrite set_month_ctx. exact H.
  - rewrite get_month_century. exact H.
  - rewrite set_year_century. apply century_form_multiple.
  - rewrite get_year_century. exact H.
  - rewrite set_ch_ctx. exact H.
  - rewrite read_date_time_century. exact H.
Qed.

(** Every operation either keeps [century] or leaves the value that
    [ds1307_set_year] computes from some year. *)
Lemma run_op_century_source (o : ds1307_op) (s : state) :
  century (fst (run_op o s)) = century (fst s) \/
  exists y, century (fst (run_op o s)) = u16 y - u16 y mod 100.
Proof.
  destruct o as [m | | x | | h | | format | d | | d | | m | | y | | c | ];
    cbn [run_op];
    try (left;
         first [ rewrite set_minute_ctx | rewrite set_second_ctx
               | rewrite set_hour_ctx | rewrite set_date_ctx
               | rewrite set_day_ctx | rewrite set_month_ctx
               | rewrite set_ch_ctx | apply get_minute_century
               | apply get_second_century | apply get_hour_century
               | apply get_date_century | apply get_day_century
               | apply get_month_century | apply get_year_century
               | apply read_date_time_century ];
         reflexivity).
  - destruct (set_time_format_century format s) as [E | E].
    + left. exact E.
    + right. exists (year (fst s)). exact E.
  - right. exists y. apply set_year_century.
Qed.

Lemma run_ops_century (os : list ds1307_op) (s : state) :
  century (fst s) mod 100 = 0 ->
  century (fst (run_ops os s)) mod 100 = 0.
Proof.
  revert s. induction os as [| o os IH]; intros s H.
  - exact H.
  - cbn [run_ops fold_left]. apply IH. apply run_op_century. exact H.
Qed.

End Century.


(** ** The context invariants across a format switch *)

(** C2.  On the echoing chip with the hour
    register holding 13 in 24-hour encoding, the context read by
    [ds1307_get_hour] satisfies the invariants; after
    [ds1307_set_time_format] to the 12-hour format the context says 12-hour
    format with [hour = 13] and [time_period = NONE].  With the register
    holding 1 PM in 12-hour encoding, after the switch to the 24-hour format
    the context says 24-hour format with [time_period = PM].  Neither
    context satisfies the invariants. *)
Theorem set_time_format_breaks_ctx_inv :
  let s0 := ds1307_get_hour
              (blank_context echo_functions,
               chip_set DS1307_HOUR_REG_ADR 19 blank_chip) in
  let s12 := ds1307_set_time_format DS1307_HOUR_FORMAT_12 s0 in
  let t0 := ds1307_get_hour
              (blank_context echo_functions,
               chip_set DS1307_HOUR_REG_ADR 97 blank_chip) in
  let t24 := ds1307_set_time_format DS1307_HOUR_FORMAT_24 t0 in
  ctx_inv (fst s0) /\
  hour_view (fst s12) = (13, DS1307_HOUR_FORMAT_12, DS1307_NONE) /\
  ~ ctx_inv (fst s12) /\
  ctx_inv (fst t0) /\
  hour_view (fst t24) = (13, DS1307_HOUR_FORMAT_24, DS1307_PM) /\
  ~ ctx_inv (fst t24).
Proof.
  intros s0 s12 t0 t24.
  assert (E0 : hour_view (fst s0) =
               (13, DS1307_HOUR_FORMAT_24, DS1307_NONE))
    by (vm_compute; reflexivity).
  assert (E12 : hour_view (fst s12) =
                (13, DS1307_HOUR_FORMAT_12, DS1307_NONE))
    by (vm_compute; reflexivity).
  assert (F0 : hour_view (fst t0) = (1, DS1307_HOUR_FORMAT_12, DS1307_PM))
    by (vm_compute; reflexivity).
  assert (F24 : hour_view (fst t24) =
                (13, DS1307_HOUR_FORMAT_24, DS1307_PM))
    by (vm_compute; reflexivity).
  clearbody s0 s12 t0 t24.
  unfold hour_view in E0, E12, F0, F24.
  injection E0 as E0h E0f E0p. injection E12 as E12h E12f E12p.
  injection F0 as F0h F0f F0p. injection F24 as F24h F24f F24p.
  unfold ctx_inv, hour_view.
  rewrite E0f, E0p, E12h, E12f, E12p, F0h, F0f, F0p, F24h, F24f, F24p.
  unfold DS1307_HOUR_FORMAT_24, DS1307_HOUR_FORMAT_12, DS1307_AM,
    DS1307_PM, DS1307_NONE.
  repeat split; try lia; try reflexivity; try (right; reflexivity).
Qed.

(** * Further properties of the driver *)

(** ** The BCD codec beyond the round trip *)

(** X1.  For every value of 0..99, [DecToBcd] returns packed BCD: the high
    nibble is the tens digit and the low nibble the units digit. *)
Theorem DecToBcd_digits (v : Z) :
  0 <= v <= 99 ->
  Z.shiftr (Z.land (DecToBcd v) 240) 4 = v / 10 /\
  Z.land (DecToBcd v) 15 = v mod 10 /\
  valid_bcd (DecToBcd v) = true.
Proof.
  intros Hv.
  assert (Hall : all_below 100
    (fun x => (Z.shiftr (Z.land (DecToBcd x) 240) 4 =? x / 10)
              && (Z.land (DecToBcd x) 15 =? x mod 10)
              && valid_bcd (DecToBcd x)) = true)
    by (vm_compute; reflexivity).
  assert (Hr : 0 <= v < Z.of_nat 100)
    by (change (Z.of_nat 100) with 100; lia).
  pose proof (all_below_spec 100 _ Hall v Hr) as H. cbv beta in H.
  apply andb_true_iff in H. destruct H as [H H3].
  apply andb_true_iff in H. destruct H as [H1 H2].
  apply Z.eqb_eq in H1. apply Z.eqb_eq in H2. auto.
Qed.

Lemma DecToBcd_digits_witness :
  Z.shiftr (Z.land (DecToBcd 47) 240) 4 = 47 / 10 /\
  Z.land (DecToBcd 47) 15 = 47 mod 10 /\
  valid_bcd (DecToBcd 47) = true.
Proof. apply (DecToBcd_digits 47). lia. Defined.

Lemma DecToBcd_BcdToDec (b : Z) :
  0 <= b < 256 -> valid_bcd b = true -> DecToBcd (BcdToDec b) = b.
Proof.
  intros Hb Hok.
  assert (Hall : all_below 256
    (fun x => negb (valid_bcd x) || (DecToBcd (BcdToDec x) =? x)) = true)
    by (vm_compute; reflexivity).
  pose proof (all_below_spec 256 _ Hall b Hb) as H. cbv beta in H.
  rewrite Hok in H. cbn [negb orb] in H. apply Z.eqb_eq. exact H.
Qed.

(** X2.  Decoding a packed-BCD byte and encoding the result gives the byte
    back, and the decoded value is at most 99. *)
Theorem bcd_reverse_roundtrip (b : Z) :
  0 <= b < 256 -> valid_bcd b = true ->
  DecToBcd (BcdToDec b) = b /\ 0 <= BcdToDec b <= 99.
Proof.
  intros Hb Hok. split; [apply DecToBcd_BcdToDec; assumption |].
  assert (Hall : all_below 256
    (fun x => negb (valid_bcd x)
              || ((0 <=? BcdToDec x) && (BcdToDec x <=? 99))) = true)
    by (vm_compute; reflexivity).
  pose proof (all_below_spec 256 _ Hall b Hb) as H. cbv beta in H.
  rewrite Hok in H. cbn [negb orb] in H.
  apply andb_true_iff in H. destruct H as [H1 H2].
  apply Z.leb_le in H1. apply Z.leb_le in H2. lia.
Qed.

Lemma bcd_reverse_roundtrip_witness :
  DecToBcd (BcdToDec 89) = 89 /\ 0 <= BcdToDec 89 <= 99.
Proof. apply (bcd_reverse_roundtrip 89); [lia | reflexivity]. Defined.

(** X3.  [BcdToDec] does not check its input: it returns ten times the high
    nibble plus the low nibble, never more than 165 (so the byte result does
    not wrap), and encoding the result gives the byte back exactly when the
    low nibble is a decimal digit. *)
Theorem BcdToDec_unchecked (b : Z) :
  0 <= b < 256 ->
  BcdToDec b = 10 * (b / 16) + b mod 16 /\
  0 <= BcdToDec b <= 165 /\
  (DecToBcd (BcdToDec b) = b <-> Z.land b 15 <= 9).
Proof.
  intros Hb.
  assert (Hall : all_below 256
    (fun x => (BcdToDec x =? 10 * (x / 16) + x mod 16)
              && (BcdToDec x <=? 165)
              && Bool.eqb (DecToBcd (BcdToDec x) =? x) (Z.land x 15 <=? 9))
    = true) by (vm_compute; reflexivity).
  pose proof (all_below_spec 256 _ Hall b Hb) as H. cbv beta in H.
  apply andb_true_iff in H. destruct H as [H H3].
  apply andb_true_iff in H. destruct H as [H1 H2].
  apply Z.eqb_eq in H1. apply Z.leb_le in H2.
  apply Bool.eqb_prop in H3.
  pose proof (BcdToDec_range b) as Hrg.
  split; [exact H1 |]. split; [lia |].
  rewrite <- Z.eqb_eq, <- Z.leb_le, H3. reflexivity.
Qed.

Lemma BcdToDec_unchecked_witness :
  BcdToDec 76 = 10 * (76 / 16) + 76 mod 16 /\
  0 <= BcdToDec 76 <= 165 /\
  (DecToBcd (BcdToDec 76) = 76 <-> Z.land 76 15 <= 9).
Proof. apply (BcdToDec_unchecked 76). lia. Defined.

(** ** The single-register accessors on the echoing chip *)

Lemma local_byte_one (x : Z) : BcdToDec (local_byte [x]) = BcdToDec x.
Proof. unfold local_byte. cbn [nth]. apply BcdToDec_u8. Qed.

Lemma chip_set_same (r : ds1307_reg_adr_t) (v : Z) (c : chip) :
  chip_set r v c r = u8 v.
Proof. unfold chip_set. rewrite Z.eqb_refl. reflexivity. Qed.

Section EchoAccessors.

Variable usr : ds1307_context_t chip.
Hypothesis Hecho : functions usr = echo_functions.
Variable c : chip.

Lemma echo_set_minute (v : Z) :
  ds1307_set_minute v (usr, c) =
  (usr, chip_set DS1307_MIN_REG_ADR (DecToBcd v) c).
Proof. unfold ds1307_set_minute. rewrite echo_write by assumption. reflexivity. Qed.

Lemma echo_set_second (v : Z) :
  ds1307_set_second v (usr, c) =
  (usr, chip_set DS1307_SEC_REG_ADR (DecToBcd v) c).
Proof. unfold ds1307_set_second. rewrite echo_write by assumption. reflexivity. Qed.

Lemma echo_set_date (v : Z) :
  ds1307_set_date v (usr, c) =
  (usr, chip_set DS1307_DATE_REG_ADR (DecToBcd v) c).
Proof. unfold ds1307_set_date. rewrite echo_write by assumption. reflexivity. Qed.

Lemma echo_set_day (v : Z) :
  ds1307_set_day v (usr, c) =
  (usr, chip_set DS1307_DAY_REG_ADR (DecToBcd v) c).
Proof. unfold ds1307_set_day. rewrite echo_write by assumption. reflexivity. Qed.

Lemma echo_set_month (v : Z) :
  ds1307_set_month v (usr, c) =
  (usr, chip_set DS1307_MONTH_REG_ADR (DecToBcd v) c).
Proof. unfold ds1307_set_month. rewrite echo_write by assumption. reflexivity. Qed.

Lemma echo_set_ch (clock : ds1307_clock_t) :
  ds1307_set_ch clock (usr, c) =
  (usr, chip_set DS1307_SEC_REG_ADR
          (match clock with
           | DS1307_CLOCK_DISABLE => 128
           | DS1307_CLOCK_ENABLE => 0
           end) c).
Proof.
  unfold ds1307_set_ch.
  destruct clock; rewrite echo_write by assumption; reflexivity.
Qed.

Lemma echo_get_minute :
  ds1307_get_minute (usr, c) =
  (with_minute chip (BcdToDec (c DS1307_MIN_REG_ADR)) usr, c).
Proof.
  unfold ds1307_get_minute. rewrite echo_read by assumption.
  rewrite local_byte_one. reflexivity.
Qed.

Lemma echo_get_second :
  ds1307_get_second (usr, c) =
  (with_second chip
     (BcdToDec (u8 (Z.land (u8 (c DS1307_SEC_REG_ADR))
                      (not32 (Z.shiftl 1 7))))) usr, c).
Proof.
  unfold ds1307_get_second. rewrite echo_read by assumption. reflexivity.
Qed.

Lemma echo_get_date :
  ds1307_get_date (usr, c) =
  (with_date chip (BcdToDec (c DS1307_DATE_REG_ADR)) usr, c).
Proof.
  unfold ds1307_get_date. rewrite echo_read by assumption.
  rewrite local_byte_one. reflexivity.
Qed.

Lemma echo_get_day :
  ds1307_get_day (usr, c) =
  (with_day chip (BcdToDec (c DS1307_DAY_REG_ADR)) usr, c).
Proof.
  unfold ds1307_get_day. rewrite echo_read by assumption.
  rewrite local_byte_one. reflexivity.
Qed.

Lemma echo_get_month :
  ds1307_get_month (usr, c) =
  (with_month chip (BcdToDec (c DS1307_MONTH_REG_ADR)) usr, c).
Proof.
  unfold ds1307_get_month. rewrite echo_read by assumption.
  rewrite local_byte_one. reflexivity.
Qed.

Lemma echo_get_year_eq :
  ds1307_get_year (usr, c) =
  (with_year chip
     (u16 (century usr + BcdToDec (c DS1307_YEAR_REG_ADR))) usr, c).
Proof.
  unfold ds1307_get_year. rewrite echo_read by assumption.
  rewrite local_byte_one. reflexivity.
Qed.

End EchoAccessors.

Lemma stored_bcd_decodes (r : ds1307_reg_adr_t) (v : Z) (c : chip) :
  0 <= v <= 99 ->
  BcdToDec (chip_set r (DecToBcd v) c r) = v.
Proof.
  intros Hv. rewrite chip_set_same, BcdToDec_u8.
  apply BcdToDec_DecToBcd. exact Hv.
Qed.

(** X4.  On the echoing chip, for every value of 0..99, writing the minute,
    the date, the day of week or the month and reading it back leaves that
    value in the corresponding context field. *)
Theorem plain_field_roundtrip
    (usr : ds1307_context_t chip) (c : chip) (v : Z) :
  functions usr = echo_functions ->
  0 <= v <= 99 ->
  minute (fst (ds1307_get_minute (ds1307_set_minute v (usr, c)))) = v /\
  date (fst (ds1307_get_date (ds1307_set_date v (usr, c)))) = v /\
  day (fst (ds1307_get_day (ds1307_set_day v (usr, c)))) = v /\
  month (fst (ds1307_get_month (ds1307_set_month v (usr, c)))) = v.
Proof.
  intros Hf Hv.
  rewrite echo_set_minute, echo_set_date, echo_set_day, echo_set_month
    by assumption.
  rewrite echo_get_minute, echo_get_date, echo_get_day, echo_get_month
    by assumption.
  cbn [fst minute date day month with_minute with_date with_day with_month].
  rewrite !stored_bcd_decodes by assumption.
  repeat split.
Qed.

Lemma plain_field_roundtrip_witness :
  minute (fst (ds1307_get_minute
                 (ds1307_set_minute 30
                    (blank_context echo_functions, blank_chip)))) = 30 /\
  date (fst (ds1307_get_date
               (ds1307_set_date 30
                  (blank_context echo_functions, blank_chip)))) = 30 /\
  day (fst (ds1307_get_day
              (ds1307_set_day 30
                 (blank_context echo_functions, blank_chip)))) = 30 /\
  month (fst (ds1307_get_month
                (ds1307_set_month 30
                   (blank_context echo_functions, blank_chip)))) = 30.
Proof.
  apply (plain_field_roundtrip (blank_context echo_functions) blank_chip 30);
    [reflexivity | lia].
Defined.

(** ** Seconds and the clock-halt bit *)

Lemma halt_mask_decode (v : Z) :
  0 <= v <= 99 ->
  BcdToDec (u8 (Z.land (u8 (u8 (DecToBcd v))) (not32 (Z.shiftl 1 7)))) =
    (if v <? 80 then v else v - 80) /\
  BcdToDec
    (u8 (Z.land (u8 (u8 (Z.lor (DecToBcd v) 128))) (not32 (Z.shiftl 1 7)))) =
    (if v <? 80 then v else v - 80).
Proof.
  intros Hv.
  assert (Hall : all_below 100
    (fun x =>
       (BcdToDec (u8 (Z.land (u8 (u8 (DecToBcd x)))
                        (not32 (Z.shiftl 1 7))))
        =? (if x <? 80 then x else x - 80))
       && (BcdToDec (u8 (Z.land (u8 (u8 (Z.lor (DecToBcd x) 128)))
                           (not32 (Z.shiftl 1 7))))
           =? (if x <? 80 then x else x - 80))) = true)
    by (vm_compute; reflexivity).
  assert (Hr : 0 <= v < Z.of_nat 100)
    by (change (Z.of_nat 100) with 100; lia).
  pose proof (all_below_spec 100 _ Hall v Hr) as H. cbv beta in H.
  apply andb_true_iff in H. destruct H as [H1 H2].
  apply Z.eqb_eq in H1. apply Z.eqb_eq in H2. auto.
Qed.

(** X5.  On the echoing chip, writing seconds [v] and reading them back
    gives [v] for every [v] of 0..79, and gives the same when the register
    also has the clock-halt bit set.  For [v] of 80..99 the BCD byte itself
    has bit 7 set, which the read masks off: the value read back is
    [v - 80]. *)
Theorem second_roundtrip_masks_halt
    (usr : ds1307_context_t chip) (c : chip) (v : Z) :
  functions usr = echo_functions ->
  0 <= v <= 99 ->
  let back := if v <? 80 then v else v - 80 in
  second (fst (ds1307_get_second (ds1307_set_second v (usr, c)))) = back /\
  second (fst (ds1307_get_second
                 (usr, chip_set DS1307_SEC_REG_ADR
                         (Z.lor (DecToBcd v) 128) c))) = back.
Proof.
  intros Hf Hv back.
  rewrite echo_set_second by assumption.
  rewrite !echo_get_second by assumption.
  cbn [fst second with_second].
  rewrite !chip_set_same.
  exact (halt_mask_decode v Hv).
Qed.

Lemma second_roundtrip_masks_halt_witness :
  second (fst (ds1307_get_second
                 (ds1307_set_second 59
                    (blank_context echo_functions, blank_chip)))) = 59 /\
  second (fst (ds1307_get_second
                 (blank_context echo_functions,
                  chip_set DS1307_SEC_REG_ADR
                    (Z.lor (DecToBcd 59) 128) blank_chip))) = 59.
Proof.
  apply (second_roundtrip_masks_halt
           (blank_context echo_functions) blank_chip 59);
    [reflexivity | lia].
Defined.

(** X6.  On the echoing chip, [ds1307_set_ch] discards the seconds: whatever
    was written by [ds1307_set_second] before, after enabling or disabling
    the clock [ds1307_get_second] reads 0. *)
Theorem set_ch_resets_seconds
    (usr : ds1307_context_t chip) (c : chip) (v : Z)
    (clock : ds1307_clock_t) :
  functions usr = echo_functions ->
  second (fst (ds1307_get_second
                 (ds1307_set_ch clock
                    (ds1307_set_second v (usr, c))))) = 0.
Proof.
  intros Hf.
  rewrite echo_set_second, echo_set_ch, echo_get_second by assumption.
  cbn [fst second with_second].
  rewrite chip_set_same.
  destruct clock; reflexivity.
Qed.

Lemma set_ch_resets_seconds_witness :
  second (fst (ds1307_get_second
                 (ds1307_set_ch DS1307_CLOCK_ENABLE
                    (ds1307_set_second 42
                       (blank_context echo_functions, blank_chip))))) = 0.
Proof.
  apply (set_ch_resets_seconds (blank_context echo_functions) blank_chip 42
           DS1307_CLOCK_ENABLE).
  reflexivity.
Defined.

(** ** The hour register: encoding and decoding *)

Lemma hour24_decode (h : Z) :
  0 <= h <= 23 ->
  hour_view (fst (ds1307_get_hour (hour_only (u8 (DecToBcd (u8 h)))))) =
  (h, DS1307_HOUR_FORMAT_24, DS1307_NONE).
Proof.
  intros Hh.
  assert (Hall : all_below 24
    (fun x =>
       let u := fst (ds1307_get_hour (hour_only (u8 (DecToBcd (u8 x))))) in
       (hour u =? x) && (time_format u =? DS1307_HOUR_FORMAT_24)
       && (time_period u =? DS1307_NONE)) = true)
    by (vm_compute; reflexivity).
  assert (Hr : 0 <= h < Z.of_nat 24)
    by (change (Z.of_nat 24) with 24; lia).
  pose proof (all_below_spec 24 _ Hall h Hr) as H. cbv beta zeta in H.
  apply andb_true_iff in H. destruct H as [H H3].
  apply andb_true_iff in H. destruct H as [H1 H2].
  apply Z.eqb_eq in H1. apply Z.eqb_eq in H2. apply Z.eqb_eq in H3.
  unfold hour_view. exact (f_equal2 pair (f_equal2 pair H1 H2) H3).
Qed.

Lemma hour12_decode (h : Z) :
  0 <= h <= 23 ->
  hour_view (fst (ds1307_get_hour (hour_only (u8 (hour12_byte (u8 h)))))) =
  (hour12_of h, DS1307_HOUR_FORMAT_12, period_of h).
Proof.
  intros Hh.
  assert (Hall : all_below 24
    (fun x =>
       let u := fst (ds1307_get_hour
                       (hour_only (u8 (hour12_byte (u8 x))))) in
       (hour u =? hour12_of x) && (time_format u =? DS1307_HOUR_FORMAT_12)
       && (time_period u =? period_of x)) = true)
    by (vm_compute; reflexivity).
  assert (Hr : 0 <= h < Z.of_nat 24)
    by (change (Z.of_nat 24) with 24; lia).
  pose proof (all_below_spec 24 _ Hall h Hr) as H. cbv beta zeta in H.
  apply andb_true_iff in H. destruct H as [H H3].
  apply andb_true_iff in H. destruct H as [H1 H2].
  apply Z.eqb_eq in H1. apply Z.eqb_eq in H2. apply Z.eqb_eq in H3.
  unfold hour_view. exact (f_equal2 pair (f_equal2 pair H1 H2) H3).
Qed.

Lemma echo_hour_view_after_set_hour
    (usr : ds1307_context_t chip) (c : chip) (h : Z) :
  functions usr = echo_functions ->
  hour_view (fst (ds1307_get_hour (ds1307_set_hour h (usr, c)))) =
  hour_view
    (fst (ds1307_get_hour
            (hour_only
               (u8 (if time_format usr =? DS1307_HOUR_FORMAT_12
                    then hour12_byte (u8 h) else DecToBcd (u8 h)))))).
Proof.
  intros Hf. rewrite echo_set_hour by assumption.
  rewrite (echo_get_hour_view usr Hf). rewrite chip_set_same. reflexivity.
Qed.

(** X7.  On the echoing chip with the context not in 12-hour format,
    [ds1307_set_hour h] followed by [ds1307_get_hour] leaves, for every [h]
    of 0..23, [hour = h], the 24-hour format and [time_period = NONE]. *)
Theorem hour_roundtrip_24h
    (usr : ds1307_context_t chip) (c : chip) (h : Z) :
  functions usr = echo_functions ->
  time_format usr <> DS1307_HOUR_FORMAT_12 ->
  0 <= h <= 23 ->
  hour_view (fst (ds1307_get_hour (ds1307_set_hour h (usr, c)))) =
  (h, DS1307_HOUR_FORMAT_24, DS1307_NONE).
Proof.
  intros Hf Hfmt Hh.
  rewrite echo_hour_view_after_set_hour by assumption.
  apply Z.eqb_neq in Hfmt. rewrite Hfmt.
  apply hour24_decode. exact Hh.
Qed.

Lemma hour_roundtrip_24h_witness :
  hour_view
    (fst (ds1307_get_hour
            (ds1307_set_hour 14
               (blank_context echo_functions, blank_chip)))) =
  (14, DS1307_HOUR_FORMAT_24, DS1307_NONE).
Proof.
  apply (hour_roundtrip_24h (blank_context echo_functions) blank_chip 14).
  - reflexivity.
  - vm_compute. discriminate.
  - lia.
Defined.

(** X8.  On the echoing chip with the context in 12-hour format,
    [ds1307_set_hour h] followed by [ds1307_get_hour] leaves, for every [h]
    of 0..23, the 12-hour clock reading of [h]: hour 12 for 0 and 12, [h] or
    [h - 12] otherwise, AM below 12 and PM from 12 on. *)
Theorem hour_roundtrip_12h
    (usr : ds1307_context_t chip) (c : chip) (h : Z) :
  functions usr = echo_functions ->
  time_format usr = DS1307_HOUR_FORMAT_12 ->
  0 <= h <= 23 ->
  hour_view (fst (ds1307_get_hour (ds1307_set_hour h (usr, c)))) =
  (hour12_of h, DS1307_HOUR_FORMAT_12, period_of h).
Proof.
  intros Hf Hfmt Hh.
  rewrite echo_hour_view_after_set_hour by assumption.
  rewrite Hfmt, Z.eqb_refl.
  apply hour12_decode. exact Hh.
Qed.

Lemma hour_roundtrip_12h_witness :
  hour_view
    (fst (ds1307_get_hour
            (ds1307_set_hour 0
               (context_12h echo_functions, blank_chip)))) =
  (hour12_of 0, DS1307_HOUR_FORMAT_12, period_of 0).
Proof.
  apply (hour_roundtrip_12h (context_12h echo_functions) blank_chip 0).
  - reflexivity.
  - reflexivity.
  - lia.
Defined.

(** X9.  For every hour of 1..23 the byte that [ds1307_set_hour] builds in
    12-hour format is the chip's 12-hour encoding: bit 6 set, bit 5 set from
    12 on, and the 12-hour clock reading in packed BCD in the low five
    bits. *)
Theorem hour12_byte_encoding (h : Z) :
  1 <= h <= 23 ->
  hour12_byte h =
    64 + (if h <? 12 then 0 else 32) + DecToBcd (hour12_of h) /\
  valid_bcd (Z.land (hour12_byte h) 31) = true.
Proof.
  intros Hh.
  assert (Hall : all_below 24
    (fun x =>
       (x =? 0)
       || ((hour12_byte x =?
              64 + (if x <? 12 then 0 else 32) + DecToBcd (hour12_of x))
           && valid_bcd (Z.land (hour12_byte x) 31))) = true)
    by (vm_compute; reflexivity).
  assert (Hr : 0 <= h < Z.of_nat 24)
    by (change (Z.of_nat 24) with 24; lia).
  pose proof (all_below_spec 24 _ Hall h Hr) as H. cbv beta in H.
  assert (E : (h =? 0) = false) by (apply Z.eqb_neq; lia).
  rewrite E in H. cbn [orb] in H.
  apply andb_true_iff in H. destruct H as [H1 H2].
  apply Z.eqb_eq in H1. auto.
Qed.

Lemma hour12_byte_encoding_witness :
  hour12_byte 13 =
    64 + (if 13 <? 12 then 0 else 32) + DecToBcd (hour12_of 13) /\
  valid_bcd (Z.land (hour12_byte 13) 31) = true.
Proof. apply (hour12_byte_encoding 13). lia. Defined.

(** ** Format and period as the reads leave them *)

Lemma get_hour_period_consistent_aux
    (B : Type) (usr : ds1307_context_t B) (bus : B) :
  let u := fst (ds1307_get_hour (usr, bus)) in
  (time_format u = DS1307_HOUR_FORMAT_24 -> time_period u = DS1307_NONE) /\
  (time_format u = DS1307_HOUR_FORMAT_12 ->
   time_period u = DS1307_AM \/ time_period u = DS1307_PM).
Proof.
  unfold ds1307_get_hour.
  destruct (ds1307_i2c_read usr DS1307_READ_ADR DS1307_HOUR_REG_ADR 1 bus)
    as [buf bus'].
  pose proof (local_byte_range buf) as Hb.
  pose proof (format_bit_cases _ Hb) as Hf.
  pose proof (period_bit_cases _ Hb) as Hp. cbn zeta in Hp.
  unfold DS1307_HOUR_FORMAT_24, DS1307_HOUR_FORMAT_12,
    DS1307_AM, DS1307_PM, DS1307_NONE.
  cbn [time_format with_time_format].
  destruct Hf as [Hf | Hf]; rewrite Hf;
    cbn -[Z.land Z.shiftr u8 not32 Z.shiftl BcdToDec].
  - split; [reflexivity | discriminate].
  - split; [discriminate | intros _; exact Hp].
Qed.

Lemma get_minute_hour_view (B : Type) (s : ds1307_state B) :
  hour_view (fst (ds1307_get_minute s)) = hour_view (fst s).
Proof.
  destruct s as [usr bus]. unfold ds1307_get_minute.
  destruct (ds1307_i2c_read usr _ _ 1 bus). reflexivity.
Qed.

Lemma get_second_hour_view (B : Type) (s : ds1307_state B) :
  hour_view (fst (ds1307_get_second s)) = hour_view (fst s).
Proof.
  destruct s as [usr bus]. unfold ds1307_get_second.
  destruct (ds1307_i2c_read usr _ _ 1 bus). reflexivity.
Qed.

Lemma read_date_time_hour_view (B : Type) (s : ds1307_state B) :
  hour_view (fst (DS1307_read_date_time s)) =
  hour_view
    (fst (ds1307_get_hour
            (ds1307_get_day
               (ds1307_get_date (ds1307_get_month (ds1307_get_year s)))))).
Proof.
  unfold DS1307_read_date_time.
  rewrite get_second_hour_view, get_minute_hour_view. reflexivity.
Qed.

(** X10.  Whatever the transport delivers, after [ds1307_get_hour] and after
    [DS1307_read_date_time] the context has [time_period = NONE] if it says
    24-hour format and AM or PM if it says 12-hour format. *)
Theorem reads_leave_period_consistent (B : Type) (s : ds1307_state B) :
  forall u,
    u = fst (ds1307_get_hour s) \/ u = fst (DS1307_read_date_time s) ->
    (time_format u = DS1307_HOUR_FORMAT_24 -> time_period u = DS1307_NONE) /\
    (time_format u = DS1307_HOUR_FORMAT_12 ->
     time_period u = DS1307_AM \/ time_period u = DS1307_PM).
Proof.
  intros u [E | E]; subst u.
  - destruct s as [usr bus]. apply get_hour_period_consistent_aux.
  - pose proof (read_date_time_hour_view B s) as Hv.
    apply hour_view_inv in Hv. destruct Hv as (_ & Hf & Hp).
    rewrite Hf, Hp.
    destruct (ds1307_get_day
                (ds1307_get_date (ds1307_get_month (ds1307_get_year s))))
      as [usr bus].
    apply get_hour_period_consistent_aux.
Qed.

Lemma reads_leave_period_consistent_witness :
  let u := fst (DS1307_read_date_time
                  (blank_context echo_functions,
                   chip_set DS1307_HOUR_REG_ADR 255 blank_chip)) in
  (time_format u = DS1307_HOUR_FORMAT_24 -> time_period u = DS1307_NONE) /\
  (time_format u = DS1307_HOUR_FORMAT_12 ->
   time_period u = DS1307_AM \/ time_period u = DS1307_PM).
Proof.
  apply (reads_leave_period_consistent chip
           (blank_context echo_functions,
            chip_set DS1307_HOUR_REG_ADR 255 blank_chip)).
  right. reflexivity.
Defined.

(** ** What goes over the bus *)

Section BusDiscipline.

Variable B : Type.
Variable f : ds1307_user_func_t B.

Local Abbreviation tstate := (ds1307_state (B * list i2c_txn)).

Lemma ok_send (usr : ds1307_context_t (B * list i2c_txn))
    (bl : B * list i2c_txn) (r : ds1307_reg_adr_t) (v : Z) :
  traced_ok f (usr, bl) ->
  0 <= v < 256 ->
  r <> DS1307_CONT_REG_ADR ->
  traced_ok f (usr, ds1307_i2c_send usr DS1307_WRITE_ADR r [v] 1 bl).
Proof.
  intros [Hf Hlog] Hv Hr. cbn [fst snd] in Hf, Hlog.
  rewrite (traced_write B f) by assumption.
  split; [exact Hf |]. unfold logged_write. cbn [fst snd].
  apply Forall_app. split; [exact Hlog |].
  constructor; [| constructor].
  cbn. repeat split; try assumption. exists v. split; [reflexivity | exact Hv].
Qed.

Lemma ok_read (usr usr' : ds1307_context_t (B * list i2c_txn))
    (bl bl' : B * list i2c_txn) (r : ds1307_reg_adr_t) (buf : list Z) :
  ds1307_i2c_read usr DS1307_READ_ADR r 1 bl = (buf, bl') ->
  traced_ok f (usr, bl) ->
  r <> DS1307_CONT_REG_ADR ->
  functions usr' = functions usr ->
  traced_ok f (usr', bl').
Proof.
  intros E [Hf Hlog] Hr Hf'. cbn [fst snd] in Hf, Hlog.
  destruct bl as [b log].
  rewrite (traced_read B f) in E by assumption.
  injection E as _ E. subst bl'.
  split; cbn [fst snd]; [rewrite Hf'; exact Hf |].
  apply Forall_app. split; [exact Hlog |].
  constructor; [| constructor].
  cbn. repeat split. exact Hr.
Qed.

Ltac ok_setter :=
  apply ok_send;
  [ assumption
  | first [ apply DecToBcd_range | apply u8_range ]
  | discriminate ].

Ltac ok_getter usr bl :=
  let buf := fresh "buf" in
  let bl' := fresh "bl" in
  let E := fresh "E" in
  destruct (ds1307_i2c_read usr DS1307_READ_ADR _ 1 bl) as [buf bl'] eqn:E;
  eapply ok_read; [exact E | assumption | discriminate | reflexivity].

Lemma ok_set_minute (v : Z) (s : tstate) :
  traced_ok f s -> traced_ok f (ds1307_set_minute v s).
Proof. destruct s as [usr bl]. intros H. unfold ds1307_set_minute. ok_setter. Qed.

Lemma ok_set_second (v : Z) (s : tstate) :
  traced_ok f s -> traced_ok f (ds1307_set_second v s).
Proof. destruct s as [usr bl]. intros H. unfold ds1307_set_second. ok_setter. Qed.

Lemma ok_set_date (v : Z) (s : tstate) :
  traced_ok f s -> traced_ok f (ds1307_set_date v s).
Proof. destruct s as [usr bl]. intros H. unfold ds1307_set_date. ok_setter. Qed.

Lemma ok_set_day (v : Z) (s : tstate) :
  traced_ok f s -> traced_ok f (ds1307_set_day v s).
Proof. destruct s as [usr bl]. intros H. unfold ds1307_set_day. ok_setter. Qed.

Lemma ok_set_month (v : Z) (s : tstate) :
  traced_ok f s -> traced_ok f (ds1307_set_month v s).
Proof. destruct s as [usr bl]. intros H. unfold ds1307_set_month. ok_setter. Qed.

Lemma ok_set_hour (v : Z) (s : tstate) :
  traced_ok f s -> traced_ok f (ds1307_set_hour v s).
Proof.
  destruct s as [usr bl]. intros H. unfold ds1307_set_hour.
  destruct (time_format usr =? DS1307_HOUR_FORMAT_12).
  - unfold hour12_byte. ok_setter.
  - ok_setter.
Qed.

Lemma ok_set_ch (clock : ds1307_clock_t) (s : tstate) :
  traced_ok f s -> traced_ok f (ds1307_set_ch clock s).
Proof.
  destruct s as [usr bl]. intros H. unfold ds1307_set_ch.
  destruct clock; ok_setter.
Qed.

Lemma ok_set_year (v : Z) (s : tstate) :
  traced_ok f s -> traced_ok f (ds1307_set_year v s).
Proof.
  destruct s as [usr bl]. intros [Hf Hlog]. unfold ds1307_set_year.
  apply (ok_send (with_century _ _ usr)).
  - split; [exact Hf | exact Hlog].
  - apply DecToBcd_range.
  - discriminate.
Qed.

Lemma ok_get_minute (s : tstate) :
  traced_ok f s -> traced_ok f (ds1307_get_minute s).
Proof. destruct s as [usr bl]. intros H. unfold ds1307_get_minute. ok_getter usr bl. Qed.

Lemma ok_get_second (s : tstate) :
  traced_ok f s -> traced_ok f (ds1307_get_second s).
Proof. destruct s as [usr bl]. intros H. unfold ds1307_get_second. ok_getter usr bl. Qed.

Lemma ok_get_date (s : tstate) :
  traced_ok f s -> traced_ok f (ds1307_get_date s).
Proof. destruct s as [usr bl]. intros H. unfold ds1307_get_date. ok_getter usr bl. Qed.

Lemma ok_get_day (s : tstate) :
  traced_ok f s -> traced_ok f (ds1307_get_day s).
Proof. destruct s as [usr bl]. intros H. unfold ds1307_get_day. ok_getter usr bl. Qed.

Lemma ok_get_month (s : tstate) :
  traced_ok f s -> traced_ok f (ds1307_get_month s).
Proof. destruct s as [usr bl]. intros H. unfold ds1307_get_month. ok_getter usr bl. Qed.

Lemma ok_get_year (s : tstate) :
  traced_ok f s -> traced_ok f (ds1307_get_year s).
Proof. destruct s as [usr bl]. intros H. unfold ds1307_get_year. ok_getter usr bl. Qed.

Lemma ok_get_hour (s : tstate) :
  traced_ok f s -> traced_ok f (ds1307_get_hour s).
Proof.
  destruct s as [usr bl]. intros H. unfold ds1307_get_hour.
  destruct (ds1307_i2c_read usr DS1307_READ_ADR _ 1 bl) as [buf bl'] eqn:E.
  cbn [time_format with_time_format].
  destruct (_ =? DS1307_HOUR_FORMAT_12);
    (eapply ok_read; [exact E | assumption | discriminate | reflexivity]).
Qed.

Lemma ok_read_date_time (s : tstate) :
  traced_ok f s -> traced_ok f (DS1307_read_date_time s).
Proof.
  intros H. unfold DS1307_read_date_time.
  cbv zeta.
  apply ok_get_second. apply ok_get_minute. apply ok_get_hour.
  apply ok_get_day. apply ok_get_date. apply ok_get_month.
  apply ok_get_year. exact H.
Qed.

Lemma ok_set_time_format (format : Z) (s : tstate) :
  traced_ok f s -> traced_ok f (ds1307_set_time_format format s).
Proof.
  intros H. unfold ds1307_set_time_format.
  pose proof (ok_get_hour s H) as H1.
  destruct (negb (time_format (fst (ds1307_get_hour s)) =? format));
    [| exact H1].
  cbv zeta.
  apply ok_set_second. apply ok_set_minute. apply ok_set_hour.
  apply ok_set_day. apply ok_set_date. apply ok_set_month.
  apply ok_set_year.
  pose proof (ok_set_ch DS1307_CLOCK_DISABLE _ H1) as [Hf Hlog].
  split; cbn [fst snd]; [| exact Hlog].
  rewrite (proj1 (convert_hour_frame _ format _)). exact Hf.
Qed.

Lemma ok_run_op (o : ds1307_op) (s : tstate) :
  traced_ok f s -> traced_ok f (run_op o s).
Proof.
  intros H.
  destruct o as [m | | x | | h | | format | d | | d | | m | | y | | c | ];
    cbn [run_op];
    first [ apply ok_read_date_time | apply ok_set_time_format
          | apply ok_set_minute | apply ok_get_minute | apply ok_set_second
          | apply ok_get_second | apply ok_set_hour | apply ok_get_hour
          | apply ok_set_date | apply ok_get_date
          | apply ok_set_day | apply ok_get_day | apply ok_set_month
          | apply ok_get_month | apply ok_set_year | apply ok_get_year
          | apply ok_set_ch ];
    exact H.
Qed.

Lemma ok_run_ops (os : list ds1307_op) (s : tstate) :
  traced_ok f s -> traced_ok f (run_ops os s).
Proof.
  revert s. induction os as [| o os IH]; intros s H.
  - exact H.
  - cbn [run_ops fold_left]. apply IH. apply ok_run_op. exact H.
Qed.

End BusDiscipline.

(** X11.  Through any transport, every transaction that any sequence of
    driver operations issues is a one-byte transfer: sends go to the write
    address with a byte of 0..255, reads to the read address, and neither
    ever names the control register. *)
Theorem driver_transactions_wellformed
    (B : Type) (f : ds1307_user_func_t B)
    (usr : ds1307_context_t (B * list i2c_txn)) (b : B)
    (os : list ds1307_op) :
  functions usr = traced f ->
  Forall txn_ok (snd (snd (run_ops os (usr, (b, []))))) /\
  functions (fst (run_ops os (usr, (b, [])))) = traced f.
Proof.
  intros Hf.
  assert (H : traced_ok f (usr, (b, []))) by (split; [exact Hf | constructor]).
  destruct (ok_run_ops B f os _ H) as [H1 H2]. split; assumption.
Qed.

Lemma driver_transactions_wellformed_witness :
  Forall txn_ok
    (snd (snd (run_ops
                 [OpSetYear 2025; OpSetTimeFormat DS1307_HOUR_FORMAT_12;
                  OpReadDateTime]
                 (blank_context (traced echo_functions),
                  (blank_chip, []))))) /\
  functions
    (fst (run_ops
            [OpSetYear 2025; OpSetTimeFormat DS1307_HOUR_FORMAT_12;
             OpReadDateTime]
            (blank_context (traced echo_functions), (blank_chip, [])))) =
  traced echo_functions.
Proof.
  apply (driver_transactions_wellformed chip echo_functions
           (blank_context (traced echo_functions)) blank_chip).
  reflexivity.
Defined.

(** ** The bulk read, seen through the log *)

Section TracedReads.

Variable B : Type.
Variable f : ds1307_user_func_t B.

Local Abbreviation rctx := (ds1307_context_t (B * list i2c_txn)).

Ltac traced_getter Hf :=
  rewrite (traced_read B f) by exact Hf;
  eexists; eexists; split; [reflexivity | exact Hf].

Lemma traced_get_year (usr : rctx) (b : B) (log : list i2c_txn) :
  functions usr = traced f ->
  exists usr' b',
    ds1307_get_year (usr, (b, log)) =
      (usr', (b', log ++ [I2cRead DS1307_READ_ADR DS1307_YEAR_REG_ADR 1])) /\
    functions usr' = traced f.
Proof. intros Hf. unfold ds1307_get_year. traced_getter Hf. Qed.

Lemma traced_get_month (usr : rctx) (b : B) (log : list i2c_txn) :
  functions usr = traced f ->
  exists usr' b',
    ds1307_get_month (usr, (b, log)) =
      (usr', (b', log ++ [I2cRead DS1307_READ_ADR DS1307_MONTH_REG_ADR 1])) /\
    functions usr' = traced f.
Proof. intros Hf. unfold ds1307_get_month. traced_getter Hf. Qed.

Lemma traced_get_date (usr : rctx) (b : B) (log : list i2c_txn) :
  functions usr = traced f ->
  exists usr' b',
    ds1307_get_date (usr, (b, log)) =
      (usr', (b', log ++ [I2cRead DS1307_READ_ADR DS1307_DATE_REG_ADR 1])) /\
    functions usr' = traced f.
Proof. intros Hf. unfold ds1307_get_date. traced_getter Hf. Qed.

Lemma traced_get_day (usr : rctx) (b : B) (log : list i2c_txn) :
  functions usr = traced f ->
  exists usr' b',
    ds1307_get_day (usr, (b, log)) =
      (usr', (b', log ++ [I2cRead DS1307_READ_ADR DS1307_DAY_REG_ADR 1])) /\
    functions usr' = traced f.
Proof. intros Hf. unfold ds1307_get_day. traced_getter Hf. Qed.

Lemma traced_get_hour (usr : rctx) (b : B) (log : list i2c_txn) :
  functions usr = traced f ->
  exists usr' b',
    ds1307_get_hour (usr, (b, log)) =
      (usr', (b', log ++ [I2cRead DS1307_READ_ADR DS1307_HOUR_REG_ADR 1])) /\
    functions usr' = traced f.
Proof.
  intros Hf.
  pose proof (get_hour_bus _ usr (b, log)) as Hbus.
  pose proof (proj1 (get_hour_frame _ usr (b, log))) as Hfr.
  rewrite (traced_read B f) in Hbus by exact Hf. cbn [snd] in Hbus.
  destruct (ds1307_get_hour (usr, (b, log))) as [u1 bl1].
  cbn [fst snd] in Hbus, Hfr. subst bl1.
  eexists. eexists. split; [reflexivity |].
  rewrite Hfr. exact Hf.
Qed.

Lemma traced_get_minute (usr : rctx) (b : B) (log : list i2c_txn) :
  functions usr = traced f ->
  exists usr' b',
    ds1307_get_minute (usr, (b, log)) =
      (usr', (b', log ++ [I2cRead DS1307_READ_ADR DS1307_MIN_REG_ADR 1])) /\
    functions usr' = traced f.
Proof. intros Hf. unfold ds1307_get_minute. traced_getter Hf. Qed.

Lemma traced_get_second (usr : rctx) (b : B) (log : list i2c_txn) :
  functions usr = traced f ->
  exists usr' b',
    ds1307_get_second (usr, (b, log)) =
      (usr', (b', log ++ [I2cRead DS1307_READ_ADR DS1307_SEC_REG_ADR 1])) /\
    functions usr' = traced f.
Proof. intros Hf. unfold ds1307_get_second. traced_getter Hf. Qed.

Lemma traced_read_date_time (usr : rctx) (b : B) (log : list i2c_txn) :
  functions usr = traced f ->
  snd (snd (DS1307_read_date_time (usr, (b, log)))) =
  log ++ [I2cRead DS1307_READ_ADR DS1307_YEAR_REG_ADR 1;
          I2cRead DS1307_READ_ADR DS1307_MONTH_REG_ADR 1;
          I2cRead DS1307_READ_ADR DS1307_DATE_REG_ADR 1;
          I2cRead DS1307_READ_ADR DS1307_DAY_REG_ADR 1;
          I2cRead DS1307_READ_ADR DS1307_HOUR_REG_ADR 1;
          I2cRead DS1307_READ_ADR DS1307_MIN_REG_ADR 1;
          I2cRead DS1307_READ_ADR DS1307_SEC_REG_ADR 1].
Proof.
  intros Hf. unfold DS1307_read_date_time. cbv zeta.
  destruct (traced_get_year usr b log Hf) as (u1 & b1 & E1 & F1).
  rewrite E1.
  match goal with
  | |- context [ds1307_get_month (u1, (b1, ?l))] =>
      destruct (traced_get_month u1 b1 l F1) as (u2 & b2 & E2 & F2)
  end.
  rewrite E2.
  match goal with
  | |- context [ds1307_get_date (u2, (b2, ?l))] =>
      destruct (traced_get_date u2 b2 l F2) as (u3 & b3 & E3 & F3)
  end.
  rewrite E3.
  match goal with
  | |- context [ds1307_get_day (u3, (b3, ?l))] =>
      destruct (traced_get_day u3 b3 l F3) as (u4 & b4 & E4 & F4)
  end.
  rewrite E4.
  match goal with
  | |- context [ds1307_get_hour (u4, (b4, ?l))] =>
      destruct (traced_get_hour u4 b4 l F4) as (u5 & b5 & E5 & F5)
  end.
  rewrite E5.
  match goal with
  | |- context [ds1307_get_minute (u5, (b5, ?l))] =>
      destruct (traced_get_minute u5 b5 l F5) as (u6 & b6 & E6 & F6)
  end.
  rewrite E6.
  match goal with
  | |- context [ds1307_get_second (u6, (b6, ?l))] =>
      destruct (traced_get_second u6 b6 l F6) as (u7 & b7 & E7 & F7)
  end.
  rewrite E7. cbn [fst snd].
  repeat rewrite <- app_assoc. reflexivity.
Qed.

End TracedReads.

(** X12.  Through any transport, [DS1307_read_date_time] issues exactly
    seven transactions, all one-byte reads, in the order year, month, date,
    day of week, hour, minute, second; it sends nothing and leaves the
    cached century as it was. *)
Theorem read_date_time_reads_only
    (B : Type) (f : ds1307_user_func_t B)
    (usr : ds1307_context_t (B * list i2c_txn))
    (b : B) (log : list i2c_txn) :
  functions usr = traced f ->
  let s' := DS1307_read_date_time (usr, (b, log)) in
  snd (snd s') =
    log ++ [I2cRead DS1307_READ_ADR DS1307_YEAR_REG_ADR 1;
            I2cRead DS1307_READ_ADR DS1307_MONTH_REG_ADR 1;
            I2cRead DS1307_READ_ADR DS1307_DATE_REG_ADR 1;
            I2cRead DS1307_READ_ADR DS1307_DAY_REG_ADR 1;
            I2cRead DS1307_READ_ADR DS1307_HOUR_REG_ADR 1;
            I2cRead DS1307_READ_ADR DS1307_MIN_REG_ADR 1;
            I2cRead DS1307_READ_ADR DS1307_SEC_REG_ADR 1] /\
  century (fst s') = century usr.
Proof.
  intros Hf s'. split.
  - apply (traced_read_date_time B f). exact Hf.
  - apply (read_date_time_century _ (usr, (b, log))).
Qed.

Lemma read_date_time_reads_only_witness :
  snd (snd (DS1307_read_date_time
              (blank_context (traced echo_functions), (blank_chip, [])))) =
    [] ++ [I2cRead DS1307_READ_ADR DS1307_YEAR_REG_ADR 1;
           I2cRead DS1307_READ_ADR DS1307_MONTH_REG_ADR 1;
           I2cRead DS1307_READ_ADR DS1307_DATE_REG_ADR 1;
           I2cRead DS1307_READ_ADR DS1307_DAY_REG_ADR 1;
           I2cRead DS1307_READ_ADR DS1307_HOUR_REG_ADR 1;
           I2cRead DS1307_READ_ADR DS1307_MIN_REG_ADR 1;
           I2cRead DS1307_READ_ADR DS1307_SEC_REG_ADR 1] /\
  century (fst (DS1307_read_date_time
                  (blank_context (traced echo_functions),
                   (blank_chip, [])))) = 0.
Proof.
  apply (read_date_time_reads_only chip echo_functions
           (blank_context (traced echo_functions)) blank_chip []).
  reflexivity.
Defined.

(** ** Writing every field and reading all of them back *)

Lemma chip_set_other (r r' : ds1307_reg_adr_t) (v : Z) (c : chip) :
  reg_index r' <> reg_index r -> chip_set r v c r' = c r'.
Proof.
  intros H. unfold chip_set. apply Z.eqb_neq in H. rewrite H. reflexivity.
Qed.

Ltac chip_lookup :=
  repeat (rewrite chip_set_same
          || rewrite chip_set_other by (cbn [reg_index]; discriminate)).

Lemma echo_set_year_eq (usr : ds1307_context_t chip) (c : chip) (y : Z) :
  functions usr = echo_functions ->
  ds1307_set_year y (usr, c) =
  (with_century chip (u16 (u16 y - u8 (u16 y mod 100))) usr,
   chip_set DS1307_YEAR_REG_ADR (DecToBcd (u8 (u16 y mod 100))) c).
Proof.
  intros Hf. unfold ds1307_set_year.
  rewrite echo_write by exact Hf. reflexivity.
Qed.

(** On the echoing chip the bulk read decodes each register on its own and
    leaves the chip as it was. *)
Lemma echo_read_date_time (usr : ds1307_context_t chip) (c : chip) :
  functions usr = echo_functions ->
  let s' := DS1307_read_date_time (usr, c) in
  let u := fst s' in
  snd s' = c /\
  functions u = echo_functions /\
  century u = century usr /\
  year u = u16 (century usr + BcdToDec (c DS1307_YEAR_REG_ADR)) /\
  month u = BcdToDec (c DS1307_MONTH_REG_ADR) /\
  date u = BcdToDec (c DS1307_DATE_REG_ADR) /\
  day u = BcdToDec (c DS1307_DAY_REG_ADR) /\
  hour_view u =
    hour_view (fst (ds1307_get_hour (hour_only (c DS1307_HOUR_REG_ADR)))) /\
  minute u = BcdToDec (c DS1307_MIN_REG_ADR) /\
  second u =
    BcdToDec (u8 (Z.land (u8 (c DS1307_SEC_REG_ADR))
                    (not32 (Z.shiftl 1 7)))).
Proof.
  intros Hf. unfold DS1307_read_date_time. cbv zeta.
  rewrite echo_get_year_eq by exact Hf.
  rewrite echo_get_month by exact Hf.
  rewrite echo_get_date by exact Hf.
  rewrite echo_get_day by exact Hf.
  match goal with
  | |- context [ds1307_get_hour (?u4, c)] =>
      assert (Hf4 : functions u4 = echo_functions) by exact Hf;
      pose proof (echo_get_hour_chip u4 Hf4 c) as Hc5;
      pose proof (get_hour_frame _ u4 c) as Hfr;
      pose proof (echo_get_hour_view u4 Hf4 c) as Hv;
      destruct (ds1307_get_hour (u4, c)) as [u5 c5]
  end.
  cbn [fst snd] in Hc5, Hfr, Hv. subst c5.
  destruct Hfr as (F5 & Hd & Hmo & Hy & _ & _ & Hda & Hce).
  assert (Hf5 : functions u5 = echo_functions) by (rewrite F5; exact Hf).
  rewrite echo_get_minute by exact Hf5.
  rewrite echo_get_second by exact Hf5.
  cbn [fst snd].
  repeat split; assumption.
Qed.

(** X13.  On the echoing chip the bulk read decodes each register on its
    own, whatever the registers hold, and changes nothing on the chip: every
    context field is the decoding of its register, the year being the cached
    century plus the decoded year register, and the seconds being decoded
    with bit 7 masked off. *)
Theorem read_date_time_decodes_registers
    (usr : ds1307_context_t chip) (c : chip) :
  functions usr = echo_functions ->
  let s' := DS1307_read_date_time (usr, c) in
  let u := fst s' in
  snd s' = c /\
  year u = u16 (century usr + BcdToDec (c DS1307_YEAR_REG_ADR)) /\
  month u = BcdToDec (c DS1307_MONTH_REG_ADR) /\
  date u = BcdToDec (c DS1307_DATE_REG_ADR) /\
  day u = BcdToDec (c DS1307_DAY_REG_ADR) /\
  hour_view u = hour_view (fst (ds1307_get_hour (usr, c))) /\
  minute u = BcdToDec (c DS1307_MIN_REG_ADR) /\
  second u =
    BcdToDec (u8 (Z.land (u8 (c DS1307_SEC_REG_ADR))
                    (not32 (Z.shiftl 1 7)))).
Proof.
  intros Hf s' u.
  destruct (echo_read_date_time usr c Hf)
    as (H1 & _ & _ & H4 & H5 & H6 & H7 & H8 & H9 & H10).
  repeat split; try assumption.
  rewrite (echo_get_hour_view usr Hf c). exact H8.
Qed.

Lemma read_date_time_decodes_registers_witness :
  year (fst (DS1307_read_date_time
               (blank_context echo_functions,
                chip_set DS1307_YEAR_REG_ADR 37 blank_chip))) =
  u16 (0 + BcdToDec 37).
Proof.
  apply (read_date_time_decodes_registers (blank_context echo_functions)
           (chip_set DS1307_YEAR_REG_ADR 37 blank_chip)).
  reflexivity.
Defined.

(** X14.  On the echoing chip, setting year, month, date, day of week,
    hour, minute and second and then reading everything back returns what
    was set: the year for any 16-bit year, month, date, day and minute for
    values of 0..99, seconds for 0..79, and the hour for 0..23 as [h] in
    24-hour format or as its 12-hour clock reading when the context is in
    12-hour format. *)
Theorem set_all_then_read_all
    (usr : ds1307_context_t chip) (c : chip) (y mo d w h mi sec : Z) :
  functions usr = echo_functions ->
  0 <= y < 65536 ->
  0 <= mo <= 99 -> 0 <= d <= 99 -> 0 <= w <= 99 ->
  0 <= h <= 23 -> 0 <= mi <= 99 -> 0 <= sec <= 79 ->
  let s :=
    ds1307_set_second sec
      (ds1307_set_minute mi
         (ds1307_set_hour h
            (ds1307_set_day w
               (ds1307_set_date d
                  (ds1307_set_month mo
                     (ds1307_set_year y (usr, c))))))) in
  let u := fst (DS1307_read_date_time s) in
  year u = y /\ month u = mo /\ date u = d /\ day u = w /\
  minute u = mi /\ second u = sec /\
  hour_view u =
    (if time_format usr =? DS1307_HOUR_FORMAT_12
     then (hour12_of h, DS1307_HOUR_FORMAT_12, period_of h)
     else (h, DS1307_HOUR_FORMAT_24, DS1307_NONE)).
Proof.
  intros Hf Hy Hmo Hd Hw Hh Hmi Hsec s u. subst u s.
  rewrite echo_set_year_eq by exact Hf.
  set (u0 := with_century chip _ usr).
  assert (Hf0 : functions u0 = echo_functions) by exact Hf.
  assert (Hc0 : century u0 = u16 y - u16 y mod 100).
  { pose proof (set_year_century _ (usr, c) y) as E.
    rewrite echo_set_year_eq in E by exact Hf. exact E. }
  rewrite (u16_small y) in Hc0 by lia.
  assert (Ht0 : time_format u0 = time_format usr) by reflexivity.
  rewrite (u16_small y) by lia.
  pose proof (Z.mod_pos_bound y 100 ltac:(lia)) as Hym.
  rewrite (u8_small (y mod 100)) by lia.
  clearbody u0.
  rewrite echo_set_month, echo_set_date, echo_set_day by exact Hf0.
  rewrite echo_set_hour by exact Hf0.
  rewrite echo_set_minute, echo_set_second by exact Hf0.
  match goal with
  | |- context [DS1307_read_date_time (u0, ?c7)] =>
      destruct (echo_read_date_time u0 c7 Hf0)
        as (_ & _ & _ & Ry & Rmo & Rd & Rw & Rh & Rmi & Rs)
  end.
  rewrite Ry, Rmo, Rd, Rw, Rh, Rmi, Rs.
  chip_lookup.
  assert (Es : (if sec <? 80 then sec else sec - 80) = sec)
    by (destruct (Z.ltb_spec sec 80); [reflexivity | lia]).
  assert (Hsec' : 0 <= sec <= 99) by lia.
  rewrite (proj1 (halt_mask_decode sec Hsec')), Es.
  rewrite !BcdToDec_u8, !BcdToDec_DecToBcd by lia.
  rewrite Hc0.
  replace (y - y mod 100 + y mod 100) with y by lia.
  rewrite (u16_small y) by lia.
  rewrite Ht0.
  repeat split.
  destruct (time_format usr =? DS1307_HOUR_FORMAT_12).
  - apply hour12_decode. exact Hh.
  - apply hour24_decode. exact Hh.
Qed.

Lemma set_all_then_read_all_witness :
  let s :=
    ds1307_set_second 0
      (ds1307_set_minute 30
         (ds1307_set_hour 14
            (ds1307_set_day 5
               (ds1307_set_date 13
                  (ds1307_set_month 6
                     (ds1307_set_year 2025
                        (blank_context echo_functions, blank_chip))))))) in
  let u := fst (DS1307_read_date_time s) in
  year u = 2025 /\ month u = 6 /\ date u = 13 /\ day u = 5 /\
  minute u = 30 /\ second u = 0 /\
  hour_view u =
    (if time_format (blank_context echo_functions) =? DS1307_HOUR_FORMAT_12
     then (hour12_of 14, DS1307_HOUR_FORMAT_12, period_of 14)
     else (14, DS1307_HOUR_FORMAT_24, DS1307_NONE)).
Proof.
  apply (set_all_then_read_all (blank_context echo_functions) blank_chip
           2025 6 13 5 14 30 0); try lia.
  reflexivity.
Defined.

(** ** More on the format switch *)

Lemma canonical_switch_format (b f : Z) :
  0 <= b < 256 ->
  f = DS1307_HOUR_FORMAT_24 \/ f = DS1307_HOUR_FORMAT_12 ->
  let t := ds1307_set_time_format f (hour_only b) in
  Z.shiftr (Z.land (local_byte [snd t DS1307_HOUR_REG_ADR]) 64) 6 = f /\
  time_format (fst t) = f.
Proof.
  intros Hb Hf.
  assert (Hall : forall g,
    g = DS1307_HOUR_FORMAT_24 \/ g = DS1307_HOUR_FORMAT_12 ->
    all_below 256
      (fun x =>
         let t := ds1307_set_time_format g (hour_only x) in
         (Z.shiftr (Z.land (local_byte [snd t DS1307_HOUR_REG_ADR]) 64) 6
          =? g)
         && (time_format (fst t) =? g)) = true)
    by (intros g [E | E]; subst g; vm_compute; reflexivity).
  pose proof (all_below_spec 256 _ (Hall f Hf) b Hb) as H.
  cbv beta zeta in H.
  apply andb_true_iff in H. destruct H as [H1 H2].
  apply Z.eqb_eq in H1. apply Z.eqb_eq in H2.
  intros t. exact (conj H1 H2).
Qed.

(** X15.  On the echoing chip, whatever byte the hour register holds, after
    [ds1307_set_time_format] with one of the two formats the register's
    format bit and the context's [time_format] are the requested format, and
    a second call with the same format leaves the chip as it is. *)
Theorem set_time_format_establishes_format
    (usr : ds1307_context_t chip) (c : chip) (f : ds_1307_hour_format_t) :
  functions usr = echo_functions ->
  0 <= c DS1307_HOUR_REG_ADR < 256 ->
  f = DS1307_HOUR_FORMAT_24 \/ f = DS1307_HOUR_FORMAT_12 ->
  let s1 := ds1307_set_time_format f (usr, c) in
  Z.shiftr (Z.land (snd s1 DS1307_HOUR_REG_ADR) 64) 6 = f /\
  time_format (fst s1) = f /\
  snd (ds1307_set_time_format f s1) = snd s1.
Proof.
  intros Hf Hb Hfmt s1.
  destruct (echo_set_time_format_local usr c f _ Hf eq_refl)
    as (Hf1 & Hv1 & Hr1).
  fold s1 in Hf1, Hv1, Hr1.
  destruct (canonical_switch_format _ f Hb Hfmt) as (Hk1 & Hk2).
  apply hour_view_inv in Hv1. destruct Hv1 as (_ & Htf & _).
  assert (Hbit : Z.shiftr
                   (Z.land (local_byte [snd s1 DS1307_HOUR_REG_ADR]) 64) 6
                 = f) by (rewrite Hr1; exact Hk1).
  assert (Es1 : s1 = (fst s1, snd s1)) by (destruct s1; reflexivity).
  assert (Hg : time_format (fst (ds1307_get_hour s1)) = f).
  { rewrite Es1, get_hour_format, echo_read by exact Hf1. exact Hbit. }
  split; [| split].
  - assert (Hall : all_below 256
      (fun x => (Z.shiftr (Z.land (local_byte [x]) 64) 6
                 =? Z.shiftr (Z.land x 64) 6)) = true)
      by (vm_compute; reflexivity).
    assert (Hrange : 0 <= snd s1 DS1307_HOUR_REG_ADR < 256).
    { destruct (Z.eq_dec (time_format (fst (ds1307_get_hour (usr, c)))) f)
        as [Heq | Hne].
      - unfold s1. rewrite (set_time_format_same _ (usr, c)) by exact Heq.
        rewrite echo_get_hour_chip by exact Hf. exact Hb.
      - destruct (echo_set_time_format_changed usr c f Hf Hne)
          as (_ & _ & H3 & _).
        fold s1 in H3. rewrite H3. apply u8_range. }
    pose proof (all_below_spec 256 _ Hall _ Hrange) as H. cbv beta in H.
    apply Z.eqb_eq in H. rewrite <- H. exact Hbit.
  - exact (eq_trans Htf Hk2).
  - rewrite (set_time_format_same _ s1) by exact Hg.
    rewrite Es1. apply echo_get_hour_chip. exact Hf1.
Qed.

Lemma set_time_format_establishes_format_witness :
  let s1 := ds1307_set_time_format DS1307_HOUR_FORMAT_12
              (blank_context echo_functions,
               chip_set DS1307_HOUR_REG_ADR 35 blank_chip) in
  Z.shiftr (Z.land (snd s1 DS1307_HOUR_REG_ADR) 64) 6
    = DS1307_HOUR_FORMAT_12 /\
  time_format (fst s1) = DS1307_HOUR_FORMAT_12 /\
  snd (ds1307_set_time_format DS1307_HOUR_FORMAT_12 s1) = snd s1.
Proof.
  apply (set_time_format_establishes_format (blank_context echo_functions)
           (chip_set DS1307_HOUR_REG_ADR 35 blank_chip)
           DS1307_HOUR_FORMAT_12).
  - reflexivity.
  - vm_compute. split; [discriminate | reflexivity].
  - right. reflexivity.
Defined.

Lemma canonical_roundtrip_from_12h (x : Z) :
  0 <= x <= 23 ->
  let b := 64 + (if x <? 12 then 0 else 32) + DecToBcd (hour12_of x) in
  let t1 := ds1307_set_time_format DS1307_HOUR_FORMAT_24 (hour_only b) in
  let t2 := ds1307_set_time_format DS1307_HOUR_FORMAT_12
              (hour_only (snd t1 DS1307_HOUR_REG_ADR)) in
  snd t1 DS1307_HOUR_REG_ADR = DecToBcd x /\
  hour (fst t1) = x /\
  snd t2 DS1307_HOUR_REG_ADR = (if x =? 0 then 76 else b) /\
  hour (fst (ds1307_get_hour
               (hour_only (snd t2 DS1307_HOUR_REG_ADR)))) = hour12_of x /\
  time_format (fst (ds1307_get_hour
                      (hour_only (snd t2 DS1307_HOUR_REG_ADR))))
    = DS1307_HOUR_FORMAT_12 /\
  time_period (fst (ds1307_get_hour
                      (hour_only (snd t2 DS1307_HOUR_REG_ADR))))
    = period_of x.
Proof.
  intros Hx.
  assert (Hall : all_below 24
    (fun x =>
       let b := 64 + (if x <? 12 then 0 else 32) + DecToBcd (hour12_of x) in
       let t1 := ds1307_set_time_format DS1307_HOUR_FORMAT_24
                   (hour_only b) in
       let t2 := ds1307_set_time_format DS1307_HOUR_FORMAT_12
                   (hour_only (snd t1 DS1307_HOUR_REG_ADR)) in
       let g := fst (ds1307_get_hour
                       (hour_only (snd t2 DS1307_HOUR_REG_ADR))) in
       (snd t1 DS1307_HOUR_REG_ADR =? DecToBcd x)
       && (hour (fst t1) =? x)
       && (snd t2 DS1307_HOUR_REG_ADR =? (if x =? 0 then 76 else b))
       && (hour g =? hour12_of x)
       && (time_format g =? DS1307_HOUR_FORMAT_12)
       && (time_period g =? period_of x)) = true)
    by (vm_compute; reflexivity).
  assert (Hr : 0 <= x < Z.of_nat 24)
    by (change (Z.of_nat 24) with 24; lia).
  pose proof (all_below_spec 24 _ Hall x Hr) as H. cbv beta zeta in H.
  apply andb_true_iff in H. destruct H as [H H6].
  apply andb_true_iff in H. destruct H as [H H5].
  apply andb_true_iff in H. destruct H as [H H4].
  apply andb_true_iff in H. destruct H as [H H3].
  apply andb_true_iff in H. destruct H as [H1 H2].
  apply Z.eqb_eq in H1. apply Z.eqb_eq in H2. apply Z.eqb_eq in H3.
  apply Z.eqb_eq in H4. apply Z.eqb_eq in H5. apply Z.eqb_eq in H6.
  intros b t1 t2.
  exact (conj H1 (conj H2 (conj H3 (conj H4 (conj H5 H6))))).
Qed.

(** X16.  On the echoing chip with the hour register holding the 12-hour
    encoding of hour [x] of 0..23, switching to the 24-hour format writes
    [x] in BCD, and switching back to the 12-hour format gives a register
    that [ds1307_get_hour] reads as the same 12-hour time.  The register
    byte itself is the original one except for midnight, where it is 0x4C
    instead of 0x52. *)
Theorem format_roundtrip_from_12h
    (usr : ds1307_context_t chip) (c : chip) (x : Z) :
  functions usr = echo_functions ->
  0 <= x <= 23 ->
  c DS1307_HOUR_REG_ADR =
    64 + (if x <? 12 then 0 else 32) + DecToBcd (hour12_of x) ->
  let s1 := ds1307_set_time_format DS1307_HOUR_FORMAT_24 (usr, c) in
  let s2 := ds1307_set_time_format DS1307_HOUR_FORMAT_12 s1 in
  snd s1 DS1307_HOUR_REG_ADR = DecToBcd x /\
  hour (fst s1) = x /\
  snd s2 DS1307_HOUR_REG_ADR =
    (if x =? 0 then 76 else c DS1307_HOUR_REG_ADR) /\
  hour_view (fst (ds1307_get_hour s2)) =
    (hour12_of x, DS1307_HOUR_FORMAT_12, period_of x).
Proof.
  intros Hf Hx Hc s1 s2.
  destruct (echo_set_time_format_local usr c DS1307_HOUR_FORMAT_24
              _ Hf Hc) as (Hf1 & Hv1 & Hr1).
  fold s1 in Hf1, Hv1, Hr1.
  assert (Es1 : s1 = (fst s1, snd s1)) by (destruct s1; reflexivity).
  destruct (echo_set_time_format_local (fst s1) (snd s1)
              DS1307_HOUR_FORMAT_12 _ Hf1 Hr1) as (Hf2 & _ & Hr2).
  rewrite <- Es1 in Hf2, Hr2. fold s2 in Hf2, Hr2.
  destruct (canonical_roundtrip_from_12h x Hx)
    as (K1 & K2 & K3 & K4 & K5 & K6).
  apply hour_view_inv in Hv1. destruct Hv1 as (Hh1 & _ & _).
  assert (Es2 : s2 = (fst s2, snd s2)) by (destruct s2; reflexivity).
  pose proof (echo_get_hour_view (fst s2) Hf2 (snd s2)) as Hv2.
  rewrite <- Es2 in Hv2.
  split; [exact (eq_trans Hr1 K1) |].
  split; [exact (eq_trans Hh1 K2) |].
  split; [rewrite Hc; exact (eq_trans Hr2 K3) |].
  rewrite Hv2, Hr2. unfold hour_view.
  exact (f_equal2 pair (f_equal2 pair K4 K5) K6).
Qed.

Lemma format_roundtrip_from_12h_witness :
  let s1 := ds1307_set_time_format DS1307_HOUR_FORMAT_24
              (blank_context echo_functions,
               chip_set DS1307_HOUR_REG_ADR 82 blank_chip) in
  let s2 := ds1307_set_time_format DS1307_HOUR_FORMAT_12 s1 in
  snd s1 DS1307_HOUR_REG_ADR = DecToBcd 0 /\
  hour (fst s1) = 0 /\
  snd s2 DS1307_HOUR_REG_ADR =
    (if 0 =? 0 then 76
     else chip_set DS1307_HOUR_REG_ADR 82 blank_chip DS1307_HOUR_REG_ADR) /\
  hour_view (fst (ds1307_get_hour s2)) =
    (hour12_of 0, DS1307_HOUR_FORMAT_12, period_of 0).
Proof.
  apply (format_roundtrip_from_12h (blank_context echo_functions)
           (chip_set DS1307_HOUR_REG_ADR 82 blank_chip) 0).
  - reflexivity.
  - lia.
  - reflexivity.
Defined.

Lemma u8_DecToBcd (v : Z) : u8 (DecToBcd v) = DecToBcd v.
Proof. apply u8_small, DecToBcd_range. Qed.

(** The registers a format switch leaves when it finds the other format. *)
Lemma echo_switch_registers
    (usr : ds1307_context_t chip) (c : chip) (format : Z) :
  functions usr = echo_functions ->
  time_format (fst (ds1307_get_hour (usr, c))) <> format ->
  let c' := snd (ds1307_set_time_format format (usr, c)) in
  c' DS1307_YEAR_REG_ADR = DecToBcd (u8 (u16 (year usr) mod 100)) /\
  c' DS1307_MONTH_REG_ADR = DecToBcd (month usr) /\
  c' DS1307_DATE_REG_ADR = DecToBcd (date usr) /\
  c' DS1307_DAY_REG_ADR = DecToBcd (day usr) /\
  c' DS1307_MIN_REG_ADR = DecToBcd (minute usr) /\
  c' DS1307_SEC_REG_ADR = DecToBcd (second usr) /\
  c' DS1307_CONT_REG_ADR = c DS1307_CONT_REG_ADR.
Proof.
  intros Hf Hne c'. subst c'.
  unfold ds1307_set_time_format.
  apply Z.eqb_neq in Hne. rewrite Hne. cbn [negb].
  pose proof (echo_get_hour_chip usr Hf c) as Hbus.
  pose proof (get_hour_frame _ usr c) as Hfr.
  destruct (ds1307_get_hour (usr, c)) as [u1 c1].
  cbn [fst snd] in *. subst c1.
  destruct Hfr as (Hf1 & Hd1 & Hmo1 & Hy1 & Hmi1 & Hs1 & Hda1 & _).
  rewrite Hf in Hf1.
  rewrite echo_set_ch by exact Hf1. cbn [fst snd].
  pose proof (convert_hour_frame _ format u1) as Hcv.
  cbn zeta in Hcv.
  set (u2 := convert_hour format u1) in *.
  destruct Hcv as (Hf2 & Hd2 & Hmo2 & Hy2 & Hmi2 & Hs2 & Hda2 & _).
  rewrite Hf1 in Hf2.
  rewrite echo_set_year_eq by exact Hf2. cbn [fst snd].
  set (u3 := with_century chip _ u2).
  assert (Hf3 : functions u3 = echo_functions) by exact Hf2.
  assert (E3 : month u3 = month usr /\ date u3 = date usr /\
               day u3 = day usr /\ minute u3 = minute usr /\
               second u3 = second usr).
  { subst u3. cbn.
    rewrite Hmo2, Hmo1, Hda2, Hda1, Hd2, Hd1, Hmi2, Hmi1, Hs2, Hs1.
    repeat split. }
  destruct E3 as (Emo & Eda & Ed & Emi & Es).
  rewrite Hy2, Hy1.
  clearbody u3.
  rewrite echo_set_month, echo_set_date, echo_set_day by exact Hf3.
  cbn [fst snd].
  rewrite echo_set_hour by exact Hf3. cbn [fst snd].
  rewrite echo_set_minute, echo_set_second by exact Hf3.
  cbn [fst snd].
  chip_lookup. rewrite !u8_DecToBcd.
  rewrite Emo, Eda, Ed, Emi, Es.
  repeat split.
Qed.

Lemma century_of_year (y : Z) :
  u16 (u16 y - u8 (u16 y mod 100)) = u16 y - u16 y mod 100.
Proof.
  exact (set_year_century chip (blank_context echo_functions, blank_chip) y).
Qed.

(** X17.  On the echoing chip, a format switch that finds the other format
    rewrites year, month, date, day, minute and second registers from the
    context fields, whatever the chip held: each register ends up as the BCD
    encoding of the cached field, the control register is left alone, and
    the cached century is recomputed from the cached year. *)
Theorem set_time_format_resyncs_from_context
    (usr : ds1307_context_t chip) (c : chip) (format : Z) :
  functions usr = echo_functions ->
  time_format (fst (ds1307_get_hour (usr, c))) <> format ->
  let s' := ds1307_set_time_format format (usr, c) in
  snd s' DS1307_YEAR_REG_ADR = DecToBcd (u8 (u16 (year usr) mod 100)) /\
  snd s' DS1307_MONTH_REG_ADR = DecToBcd (month usr) /\
  snd s' DS1307_DATE_REG_ADR = DecToBcd (date usr) /\
  snd s' DS1307_DAY_REG_ADR = DecToBcd (day usr) /\
  snd s' DS1307_MIN_REG_ADR = DecToBcd (minute usr) /\
  snd s' DS1307_SEC_REG_ADR = DecToBcd (second usr) /\
  snd s' DS1307_CONT_REG_ADR = c DS1307_CONT_REG_ADR /\
  century (fst s') = u16 (year usr) - u16 (year usr) mod 100.
Proof.
  intros Hf Hne s'.
  destruct (echo_switch_registers usr c format Hf Hne)
    as (H1 & H2 & H3 & H4 & H5 & H6 & H7).
  destruct (echo_set_time_format_changed usr c format Hf Hne)
    as (_ & _ & _ & _ & H8).
  rewrite century_of_year in H8.
  repeat split; assumption.
Qed.

Lemma set_time_format_resyncs_from_context_witness :
  let s' := ds1307_set_time_format DS1307_HOUR_FORMAT_12
              (blank_context echo_functions,
               chip_set DS1307_MIN_REG_ADR 89 blank_chip) in
  snd s' DS1307_YEAR_REG_ADR = DecToBcd (u8 (u16 0 mod 100)) /\
  snd s' DS1307_MONTH_REG_ADR = DecToBcd 0 /\
  snd s' DS1307_DATE_REG_ADR = DecToBcd 0 /\
  snd s' DS1307_DAY_REG_ADR = DecToBcd 0 /\
  snd s' DS1307_MIN_REG_ADR = DecToBcd 0 /\
  snd s' DS1307_SEC_REG_ADR = DecToBcd 0 /\
  snd s' DS1307_CONT_REG_ADR =
    chip_set DS1307_MIN_REG_ADR 89 blank_chip DS1307_CONT_REG_ADR /\
  century (fst s') = u16 0 - u16 0 mod 100.
Proof.
  apply (set_time_format_resyncs_from_context
           (blank_context echo_functions)
           (chip_set DS1307_MIN_REG_ADR 89 blank_chip)
           DS1307_HOUR_FORMAT_12).
  - reflexivity.
  - vm_compute. discriminate.
Defined.

Lemma valid_bcd_decode_bound (b : Z) :
  0 <= b < 256 -> valid_bcd b = true -> 0 <= BcdToDec b <= 99.
Proof.
  intros Hb Hok.
  assert (Hall : all_below 256
    (fun x => negb (valid_bcd x) || (BcdToDec x <=? 99)) = true)
    by (vm_compute; reflexivity).
  pose proof (all_below_spec 256 _ Hall b Hb) as H. cbv beta in H.
  rewrite Hok in H. cbn [negb orb] in H. apply Z.leb_le in H.
  pose proof (BcdToDec_range b). lia.
Qed.

Lemma seconds_reencode (b : Z) :
  0 <= b < 256 -> valid_bcd (Z.land b 127) = true ->
  DecToBcd (BcdToDec (u8 (Z.land (u8 b) (not32 (Z.shiftl 1 7))))) =
  Z.land b 127.
Proof.
  intros Hb Hok.
  assert (Hall : all_below 256
    (fun x => negb (valid_bcd (Z.land x 127))
              || (DecToBcd
                    (BcdToDec (u8 (Z.land (u8 x) (not32 (Z.shiftl 1 7)))))
                  =? Z.land x 127)) = true)
    by (vm_compute; reflexivity).
  pose proof (all_below_spec 256 _ Hall b Hb) as H. cbv beta in H.
  rewrite Hok in H. cbn [negb orb] in H. apply Z.eqb_eq. exact H.
Qed.

(** X18.  On the echoing chip, when the registers hold packed BCD and the
    cached century is a multiple of 100 below 65500, a bulk read followed by
    a format switch that finds the other format leaves the year, month,
    date, day and minute registers as they were, leaves the seconds register
    with its value and the clock-halt bit clear, and keeps the cached
    century. *)
Theorem read_then_switch_keeps_date
    (usr : ds1307_context_t chip) (c : chip) (format : Z) :
  functions usr = echo_functions ->
  (forall r, r = DS1307_YEAR_REG_ADR \/ r = DS1307_MONTH_REG_ADR \/
             r = DS1307_DATE_REG_ADR \/ r = DS1307_DAY_REG_ADR \/
             r = DS1307_MIN_REG_ADR ->
             0 <= c r < 256 /\ valid_bcd (c r) = true) ->
  0 <= c DS1307_SEC_REG_ADR < 256 ->
  valid_bcd (Z.land (c DS1307_SEC_REG_ADR) 127) = true ->
  century usr mod 100 = 0 ->
  0 <= century usr <= 65400 ->
  time_format (fst (ds1307_get_hour (usr, c))) <> format ->
  let s' := ds1307_set_time_format format
              (DS1307_read_date_time (usr, c)) in
  snd s' DS1307_YEAR_REG_ADR = c DS1307_YEAR_REG_ADR /\
  snd s' DS1307_MONTH_REG_ADR = c DS1307_MONTH_REG_ADR /\
  snd s' DS1307_DATE_REG_ADR = c DS1307_DATE_REG_ADR /\
  snd s' DS1307_DAY_REG_ADR = c DS1307_DAY_REG_ADR /\
  snd s' DS1307_MIN_REG_ADR = c DS1307_MIN_REG_ADR /\
  snd s' DS1307_SEC_REG_ADR = Z.land (c DS1307_SEC_REG_ADR) 127 /\
  century (fst s') = century usr.
Proof.
  intros Hf Hregs Hsb Hsv Hcm Hcb Hne s'.
  destruct (echo_read_date_time usr c Hf)
    as (R0 & Rf & Rc & Ry & Rmo & Rd & Rw & Rh & Rmi & Rs).
  assert (Es0 : DS1307_read_date_time (usr, c) =
                (fst (DS1307_read_date_time (usr, c)), c)).
  { rewrite <- R0 at 3. destruct (DS1307_read_date_time (usr, c)).
    reflexivity. }
  set (u := fst (DS1307_read_date_time (usr, c))) in *.
  subst s'. rewrite Es0.
  assert (Hne' : time_format (fst (ds1307_get_hour (u, c))) <> format).
  { pose proof (echo_get_hour_view u Rf c) as V1.
    pose proof (echo_get_hour_view usr Hf c) as V2.
    apply hour_view_inv in V1. apply hour_view_inv in V2.
    destruct V1 as (_ & V1 & _). destruct V2 as (_ & V2 & _).
    intros E. apply Hne. exact (eq_trans V2 (eq_trans (eq_sym V1) E)). }
  destruct (echo_switch_registers u c format Rf Hne')
    as (H1 & H2 & H3 & H4 & H5 & H6 & _).
  destruct (echo_set_time_format_changed u c format Rf Hne')
    as (_ & _ & _ & _ & H8).
  rewrite century_of_year in H8.
  destruct (Hregs DS1307_YEAR_REG_ADR ltac:(auto)) as (By & Vy).
  destruct (Hregs DS1307_MONTH_REG_ADR ltac:(auto)) as (Bmo & Vmo).
  destruct (Hregs DS1307_DATE_REG_ADR ltac:(auto)) as (Bd & Vd).
  destruct (Hregs DS1307_DAY_REG_ADR ltac:(auto 6)) as (Bw & Vw).
  destruct (Hregs DS1307_MIN_REG_ADR ltac:(auto 6)) as (Bmi & Vmi).
  pose proof (valid_bcd_decode_bound _ By Vy) as Hd.
  assert (Eyear : u16 (year u) = century usr +
                                 BcdToDec (c DS1307_YEAR_REG_ADR)).
  { rewrite Ry. unfold u16. rewrite Z.mod_mod by lia.
    apply Z.mod_small. lia. }
  assert (Emod : u16 (year u) mod 100 = BcdToDec (c DS1307_YEAR_REG_ADR)).
  { rewrite Eyear, Z.add_comm, Zplus_mod, Hcm, Z.add_0_r, Z.mod_mod by lia.
    apply Z.mod_small. lia. }
  rewrite Emod in H1, H8. rewrite Eyear in H8.
  rewrite u8_small in H1 by lia.
  rewrite Rmo in H2. rewrite Rd in H3. rewrite Rw in H4. rewrite Rmi in H5.
  rewrite Rs in H6.
  rewrite DecToBcd_BcdToDec in H1, H2, H3, H4, H5 by assumption.
  rewrite seconds_reencode in H6 by assumption.
  repeat split; try assumption.
  rewrite H8. lia.
Qed.

Lemma read_then_switch_keeps_date_witness :
  snd (ds1307_set_time_format DS1307_HOUR_FORMAT_12
         (DS1307_read_date_time
            (blank_context echo_functions,
             chip_set DS1307_MIN_REG_ADR 89 blank_chip)))
      DS1307_MIN_REG_ADR =
  chip_set DS1307_MIN_REG_ADR 89 blank_chip DS1307_MIN_REG_ADR.
Proof.
  apply (read_then_switch_keeps_date (blank_context echo_functions)
           (chip_set DS1307_MIN_REG_ADR 89 blank_chip)
           DS1307_HOUR_FORMAT_12).
  - reflexivity.
  - intros r [E | [E | [E | [E | E]]]]; subst r; vm_compute;
      (split; [split; [discriminate | reflexivity] | reflexivity]).
  - vm_compute. split; [discriminate | reflexivity].
  - reflexivity.
  - reflexivity.
  - vm_compute. split; discriminate.
  - vm_compute. discriminate.
Defined.

(** X19.  [ds1307_set_year] does not store the year in the context, so on
    the echoing chip a format switch that finds the other format right after
    [ds1307_set_year y] overwrites the year register and the cached century
    with those of the context's old [year], whatever [y] was. *)
Theorem switch_after_set_year_uses_cached_year
    (usr : ds1307_context_t chip) (c : chip) (y format : Z) :
  functions usr = echo_functions ->
  time_format (fst (ds1307_get_hour (usr, c))) <> format ->
  let s1 := ds1307_set_year y (usr, c) in
  let s' := ds1307_set_time_format format s1 in
  year (fst s1) = year usr /\
  snd s' DS1307_YEAR_REG_ADR = DecToBcd (u8 (u16 (year usr) mod 100)) /\
  century (fst s') = u16 (year usr) - u16 (year usr) mod 100.
Proof.
  intros Hf Hne s1 s'. subst s' s1.
  rewrite echo_set_year_eq by exact Hf.
  set (u0 := with_century chip _ usr).
  set (c0 := chip_set DS1307_YEAR_REG_ADR _ c).
  assert (Hf0 : functions u0 = echo_functions) by exact Hf.
  assert (Hne0 : time_format (fst (ds1307_get_hour (u0, c0))) <> format).
  { pose proof (echo_get_hour_view u0 Hf0 c0) as V1.
    pose proof (echo_get_hour_view usr Hf c) as V2.
    assert (Ec : c0 DS1307_HOUR_REG_ADR = c DS1307_HOUR_REG_ADR)
      by (subst c0; apply chip_set_other; cbn [reg_index]; discriminate).
    rewrite Ec in V1.
    apply hour_view_inv in V1. apply hour_view_inv in V2.
    destruct V1 as (_ & V1 & _). destruct V2 as (_ & V2 & _).
    intros E. apply Hne. exact (eq_trans V2 (eq_trans (eq_sym V1) E)). }
  destruct (echo_switch_registers u0 c0 format Hf0 Hne0) as (H1 & _).
  destruct (echo_set_time_format_changed u0 c0 format Hf0 Hne0)
    as (_ & _ & _ & _ & H8).
  rewrite century_of_year in H8.
  cbn [fst].
  split; [reflexivity |]. split; [exact H1 | exact H8].
Qed.

Lemma switch_after_set_year_uses_cached_year_witness :
  let s1 := ds1307_set_year 2025
              (blank_context echo_functions, blank_chip) in
  let s' := ds1307_set_time_format DS1307_HOUR_FORMAT_12 s1 in
  year (fst s1) = 0 /\
  snd s' DS1307_YEAR_REG_ADR = DecToBcd (u8 (u16 0 mod 100)) /\
  century (fst s') = u16 0 - u16 0 mod 100.
Proof.
  apply (switch_after_set_year_uses_cached_year
           (blank_context echo_functions) blank_chip 2025
           DS1307_HOUR_FORMAT_12).
  - reflexivity.
  - vm_compute. discriminate.
Defined.

(** ** The cached century: who writes it *)

(** C8, as stated, fails on the code.  On the echoing chip, with 1987 cached
    in [year] and the hour register in 24-hour encoding, [ds1307_set_year
    2025] leaves [century = 2000]; the format switch to 12-hour format that
    follows is not a call of [ds1307_set_year] by the user, yet it writes
    [century]: afterwards [century = 1900]. *)
Lemma set_time_format_writes_century :
  let s1 := ds1307_set_year 2025
              (with_year chip 1987 (blank_context echo_functions),
               blank_chip) in
  let s2 := run_op (OpSetTimeFormat DS1307_HOUR_FORMAT_12) s1 in
  century (fst s1) = 2000 /\
  century (fst s2) = 1900 /\
  ~ (forall (o : ds1307_op) (s : ds1307_state chip),
        (forall y, o <> OpSetYear y) ->
        century (fst (run_op o s)) = century (fst s)).
Proof.
  intros s1 s2.
  assert (E1 : century (fst s1) = 2000) by (vm_compute; reflexivity).
  assert (E2 : century (fst s2) = 1900) by (vm_compute; reflexivity).
  split; [exact E1 |]. split; [exact E2 |].
  intros H.
  specialize (H (OpSetTimeFormat DS1307_HOUR_FORMAT_12) s1
                ltac:(intros y; discriminate)).
  fold s2 in H. rewrite E1, E2 in H. discriminate H.
Qed.

(** C8 (amended).  After [ds1307_set_year], whatever the year passed,
    [century] is a multiple of 100, and it still is after any sequence of
    driver operations that follows.  Two operations write [century]:
    [ds1307_set_year y] stores [y] without its last two digits, and
    [ds1307_set_time_format], when the format it reads from the hour
    register is not the requested one, stores the cached [year] without its
    last two digits (it keeps [century] when the formats agree).  Every
    other operation keeps [century]. *)
Theorem century_invariant_and_writers
    (B : Type) (s : ds1307_state B) (y : Z) (os : list ds1307_op) :
  century (fst (ds1307_set_year y s)) mod 100 = 0 /\
  century (fst (run_ops os (ds1307_set_year y s))) mod 100 = 0 /\
  century (fst (ds1307_set_year y s)) = u16 y - u16 y mod 100 /\
  (forall (format : ds_1307_hour_format_t) (s0 : ds1307_state B),
      century (fst (ds1307_set_time_format format s0)) =
      if time_format (fst (ds1307_get_hour s0)) =? format
      then century (fst s0)
      else u16 (year (fst s0)) - u16 (year (fst s0)) mod 100) /\
  (forall (o : ds1307_op) (s0 : ds1307_state B),
      (forall y0, o <> OpSetYear y0) ->
      (forall format, o <> OpSetTimeFormat format) ->
      century (fst (run_op o s0)) = century (fst s0)).
Proof.
  assert (H : century (fst (ds1307_set_year y s)) mod 100 = 0)
    by (rewrite set_year_century; apply century_form_multiple).
  split; [exact H |].
  split; [apply run_ops_century; exact H |].
  split; [apply set_year_century |].
  split.
  - intros format s0. apply set_time_format_century_exact.
  - intros o s0. apply run_op_century_frame.
Qed.

Lemma century_invariant_and_writers_witness :
  century
    (fst (run_op OpReadDateTime
            (ds1307_set_year 2025
               (blank_context echo_functions, blank_chip)))) =
  century
    (fst (ds1307_set_year 2025
            (blank_context echo_functions, blank_chip))).
Proof.
  apply (proj2 (proj2 (proj2 (proj2
           (century_invariant_and_writers chip
              (blank_context echo_functions, blank_chip) 2025 []))))).
  - intros y0. discriminate.
  - intros format. discriminate.
Defined.
